(** * Serenity Student backend: sentiment extraction and wellness analytics

    A shallow embedding of [App/backend/server.py].  Python values are
    modelled as the interpreter has them:
    - [str] as the [string] of its UTF-8 bytes.  The prefixes, the colon
      and the newline the code cuts at are ASCII, so cutting the bytes
      cuts the text.  [strip] removes the white space of Unicode;
      [lower] and [float] work on ASCII text as CPython's fast paths do
      and hand any other text to the interpreter's Unicode data, which
      is a parameter ([Unicode]).
    - [float] as an IEEE-754 binary64 value: [spec_float] with a 53 bit
      mantissa and [emax = 1024].  Literals, [float(s)], [int / int] and
      [round(x, 1)] are correctly rounded, as in CPython.
    - [dict] documents as finite maps from field names to values.
    - Exceptions, the language-model gateway, the Mongo collections, uuid,
      clock and log are explicit effects of a small free monad; a world
      supplies the gateway's answers and the store's availability.
      Exceptions below [Exception] and those below [BaseException] only
      (a cancelled request) are kept apart: [except Exception] catches
      the first kind and lets the second pass.

    Outside the model: the [_id] Mongo adds to a stored document, the
    order Mongo gives to documents with equal sort keys, a cancellation
    that arrives during a store call, and pydantic's coercion of values
    the handlers never produce (these raise [ValidationError] here; a
    stored [created_at] string is taken as the datetime it is the ISO
    form of). *)

From Stdlib Require Import ZArith Lia Bool List.
From Stdlib Require Import Strings.Ascii Strings.String.
From Stdlib Require Import Floats.SpecFloat.
From stdpp Require Import base option gmap strings.
Import ListNotations.

Local Open Scope string_scope.
Local Open Scope Z_scope.

(** ** The interpreter's Unicode data *)

(** What CPython reads from its Unicode tables.  Both functions are
    applied only to text that is not ASCII. *)
Class Unicode := {
  (** [s.lower()]: the full case mapping, with the final-sigma rule *)
  unicode_lower : string -> string;
  (** the ASCII text [float(s)] reads in place of [s]: every decimal
      digit becomes its ASCII digit, every white space a space, any
      other non-ASCII character a question mark *)
  unicode_decimal : string -> string }.

(** ** Python [str] methods *)

Module PyStr.

Definition is_ascii_char (c : ascii) : bool := (nat_of_ascii c <? 128)%nat.

(** No character of the text lies outside ASCII. *)
Fixpoint is_ascii (s : string) : bool :=
  match s with
  | EmptyString => true
  | String c s' => is_ascii_char c && is_ascii s'
  end.

Definition utf8 (bytes : list nat) : string :=
  string_of_list_ascii (List.map ascii_of_nat bytes).

(** [s.startswith(p)] *)
Fixpoint startswith (s p : string) : bool :=
  match p, s with
  | EmptyString, _ => true
  | String a p', String b s' => Ascii.eqb a b && startswith s' p'
  | String _ _, EmptyString => false
  end.

(** White space in the ASCII range: TAB, LF, VT, FF, CR, the four
    separators FS GS RS US and the space. *)
Definition ascii_space (c : ascii) : bool :=
  let n := nat_of_ascii c in
  ((9 <=? n)%nat && (n <=? 13)%nat)
  || ((28 <=? n)%nat && (n <=? 32)%nat).

(** The white space outside ASCII, as UTF-8: U+0085 and U+00A0 on two
    bytes; U+1680, U+2000 to U+200A, U+2028, U+2029, U+202F, U+205F and
    U+3000 on three. *)
Definition spaces2 : list string :=
  [utf8 [194; 133]; utf8 [194; 160]]%nat.

Definition spaces3 : list string :=
  [utf8 [225; 154; 128];
   utf8 [226; 128; 128]; utf8 [226; 128; 129]; utf8 [226; 128; 130];
   utf8 [226; 128; 131]; utf8 [226; 128; 132]; utf8 [226; 128; 133];
   utf8 [226; 128; 134]; utf8 [226; 128; 135]; utf8 [226; 128; 136];
   utf8 [226; 128; 137]; utf8 [226; 128; 138];
   utf8 [226; 128; 168]; utf8 [226; 128; 169]; utf8 [226; 128; 175];
   utf8 [226; 129; 159];
   utf8 [227; 128; 128]]%nat.

(** The number of bytes of the white-space character [s] starts with;
    [0] when it starts with none. *)
Definition space_width (s : string) : nat :=
  match s with
  | String c _ =>
      if ascii_space c then 1%nat
      else if existsb (startswith s) spaces2 then 2%nat
      else if existsb (startswith s) spaces3 then 3%nat
      else 0%nat
  | EmptyString => 0%nat
  end.

(** [s.lstrip()] *)
Fixpoint lstrip (s : string) : string :=
  match space_width s, s with
  | 1%nat, String _ s1 => lstrip s1
  | 2%nat, String _ (String _ s2) => lstrip s2
  | 3%nat, String _ (String _ (String _ s3)) => lstrip s3
  | _, _ => s
  end.

(** [s.isspace() or s == ''] *)
Definition blank (s : string) : bool :=
  match lstrip s with
  | EmptyString => true
  | String _ _ => false
  end.

(** [s.rstrip()]: the longest blank end of [s] is dropped. *)
Fixpoint rstrip (s : string) : string :=
  match s with
  | String c s' => if blank s then EmptyString else String c (rstrip s')
  | EmptyString => EmptyString
  end.

(** [s.strip()] *)
Definition strip (s : string) : string := rstrip (lstrip s).

(** [s.split(sep)] for a one-character separator: never an empty list. *)
Fixpoint split (sep : ascii) (s : string) : list string :=
  match s with
  | EmptyString => [EmptyString]
  | String c s' =>
      if Ascii.eqb c sep then EmptyString :: split sep s'
      else match split sep s' with
           | w :: ws => String c w :: ws
           | [] => [String c EmptyString]
           end
  end.

(** [s.split(sep, 1)]: cut at the first separator only. *)
Fixpoint split1 (sep : ascii) (s : string) : list string :=
  match s with
  | EmptyString => [EmptyString]
  | String c s' =>
      if Ascii.eqb c sep then [EmptyString; s']
      else match split1 sep s' with
           | w :: ws => String c w :: ws
           | [] => [String c EmptyString]
           end
  end.

Definition lower_char (c : ascii) : ascii :=
  let n := nat_of_ascii c in
  if (65 <=? n)%nat && (n <=? 90)%nat then ascii_of_nat (n + 32) else c.

(** [s.lower()] on ASCII text: the letters A to Z are lowered. *)
Fixpoint ascii_lower (s : string) : string :=
  match s with
  | EmptyString => EmptyString
  | String c s' => String (lower_char c) (ascii_lower s')
  end.

(** [s.lower()] *)
Definition lower {U : Unicode} (s : string) : string :=
  if is_ascii s then ascii_lower s else unicode_lower s.

(** [c in s] for one character *)
Fixpoint contains (s : string) (c : ascii) : bool :=
  match s with
  | EmptyString => false
  | String b s' => Ascii.eqb b c || contains s' c
  end.

(** ["\n".join(ls)] *)
Fixpoint join_lines (ls : list string) : string :=
  match ls with
  | [] => EmptyString
  | [l] => l
  | l :: ls' => l ++ String "010"%char (join_lines ls')
  end.

End PyStr.

(** ** Exceptions and fallible pure code *)

(** Exceptions below [Exception]. *)
Inductive exn : Type :=
| GatewayError
| StoreError
| IndexError
| KeyError
| TypeError
| ValueError
| ZeroDivisionError
| OverflowError
| AttributeError
| ValidationError
| HTTPException (status_code : nat) (detail : string).

(** Exceptions below [BaseException] that are no [Exception]: a
    cancelled request and the interpreter's exit signals. *)
Inductive base_exn : Type :=
| CancelledError
| KeyboardInterrupt
| SystemExit
| GeneratorExit.

(** How a computation ends: it returns, raises an [Exception], or
    raises one of the other [BaseException]s. *)
Inductive Result (A : Type) : Type :=
| Ok (a : A)
| Err (e : exn)
| ErrBase (b : base_exn).
Arguments Ok {A} a.
Arguments Err {A} e.
Arguments ErrBase {A} b.

Definition rbind {A B} (r : Result A) (f : A -> Result B) : Result B :=
  match r with
  | Ok a => f a
  | Err e => Err e
  | ErrBase b => ErrBase b
  end.

(** ** Python [float]: IEEE-754 binary64 *)

Module PyFloat.

Abbreviation float := spec_float.

Definition prec : Z := 53.
Definition emax : Z := 1024.

(** An integer seen as an exact, not yet rounded, binary number. *)
Definition exact (z : Z) : float :=
  match z with
  | Z0 => S754_zero false
  | Zpos p => S754_finite false p 0
  | Zneg p => S754_finite true p 0
  end.

(** [float(z)] for an [int]: rounded to nearest, ties to even. *)
Definition of_int (z : Z) : float := binary_normalize prec emax z 0 false.

(** The binary64 value nearest to [m * 10^e10] (sign [neg], [0 <= m]):
    what [strtod] computes for a decimal literal. *)
Definition of_decimal (neg : bool) (m : Z) (e10 : Z) : float :=
  match m with
  | Zpos p =>
      if 0 <=? e10
      then binary_normalize prec emax
             (if neg then - (m * 10 ^ e10) else m * 10 ^ e10) 0 neg
      else SFdiv prec emax (S754_finite neg p 0) (exact (10 ^ (- e10)))
  | _ => S754_zero neg
  end.

(** [a / b] on two [int]s: correctly rounded true division. *)
Definition truediv (a b : Z) : Result float :=
  if b =? 0 then Err ZeroDivisionError
  else match SFdiv prec emax (exact a) (exact b) with
       | S754_infinity _ => Err OverflowError
       | q => Ok q
       end.

Definition ltb (x y : float) : bool := SFltb x y.
Definition leb (x y : float) : bool := SFleb x y.
(** [x > y] *)
Definition gtb (x y : float) : bool := SFltb y x.

(** Nearest integer to [n * 2^e], ties to the even integer ([0 <= n]). *)
Definition rint_scaled (n e : Z) : Z :=
  if 0 <=? e then n * 2 ^ e
  else
    let d := 2 ^ (- e) in
    let q := n / d in
    match (2 * (n mod d)) ?= d with
    | Lt => q
    | Gt => q + 1
    | Eq => if Z.even q then q else q + 1
    end.

(** [round(x, 1)]: the exact binary value of [x] is rounded to the
    nearest multiple of one tenth, ties to the even multiple, and the
    decimal so obtained is converted back to the nearest [float].
    Zeros, infinities and NaN are returned unchanged. *)
Definition round1 (x : float) : float :=
  match x with
  | S754_finite s m e => of_decimal s (rint_scaled (10 * Zpos m) e) (-1)
  | _ => x
  end.

(** *** [float(s)] on a string *)

Definition is_digit (c : ascii) : bool :=
  let n := nat_of_ascii c in (48 <=? n)%nat && (n <=? 57)%nat.

Definition digit_val (c : ascii) : Z := Z.of_nat (nat_of_ascii c) - 48.

(** Underscores may only stand between two digits; they are dropped
    before the number is read. [prev] is the previous character. *)
Fixpoint drop_underscores (prev : option ascii) (s : string) : option string :=
  match s with
  | EmptyString =>
      match prev with
      | Some "_"%char => None
      | _ => Some EmptyString
      end
  | String c s' =>
      if Ascii.eqb c "_"
      then match prev with
           | Some p => if is_digit p then drop_underscores (Some c) s' else None
           | None => None
           end
      else
        let ok := match prev with
                  | Some "_"%char => is_digit c
                  | _ => true
                  end in
        if ok then option_map (String c) (drop_underscores (Some c) s')
        else None
  end.

(** Longest run of digits: its value (after [acc]), its length, the rest. *)
Fixpoint digits (acc : Z) (n : nat) (s : string) : Z * nat * string :=
  match s with
  | String c s' =>
      if is_digit c then digits (10 * acc + digit_val c) (S n) s'
      else (acc, n, s)
  | EmptyString => (acc, n, s)
  end.

Definition sign_split (s : string) : bool * string :=
  match s with
  | String "-"%char s' => (true, s')
  | String "+"%char s' => (false, s')
  | _ => (false, s)
  end.

(** [number [exponent]] of the float grammar, after the sign. *)
Definition parse_number (neg : bool) (s : string) : option float :=
  let '(ip, n_ip, r1) := digits 0 0 s in
  let '(m, n_fp, r2) :=
    match r1 with
    | String "."%char r1' => digits ip 0 r1'
    | _ => (ip, 0%nat, r1)
    end in
  if (n_ip + n_fp =? 0)%nat then None
  else
    match r2 with
    | EmptyString => Some (of_decimal neg m (- Z.of_nat n_fp))
    | String c r2' =>
        if Ascii.eqb c "e" || Ascii.eqb c "E" then
          let '(eneg, r3) := sign_split r2' in
          match digits 0 0 r3 with
          | (ev, S _, EmptyString) =>
              Some (of_decimal neg m
                      ((if eneg then - ev else ev) - Z.of_nat n_fp))
          | _ => None
          end
        else None
    end.

(** The white space [float] skips at both ends of ASCII text: TAB, LF,
    VT, FF, CR and the space. *)
Definition c_space (c : ascii) : bool :=
  let n := nat_of_ascii c in
  ((9 <=? n)%nat && (n <=? 13)%nat) || (n =? 32)%nat.

Fixpoint skip_space (s : string) : string :=
  match s with
  | String c s' => if c_space c then skip_space s' else s
  | EmptyString => EmptyString
  end.

Fixpoint drop_space_end (s : string) : string :=
  match s with
  | String c s' =>
      match drop_space_end s' with
      | EmptyString => if c_space c then EmptyString else String c EmptyString
      | r => String c r
      end
  | EmptyString => EmptyString
  end.

(** [float(s)]: [None] stands for [ValueError].  Text that is not ASCII
    is first brought to ASCII; then white space is skipped at both ends
    and the float grammar is read. *)
Definition of_str {U : Unicode} (s : string) : option float :=
  let a := if PyStr.is_ascii s then s else unicode_decimal s in
  match drop_underscores None (drop_space_end (skip_space a)) with
  | None => None
  | Some t =>
      let '(neg, body) := sign_split t in
      let l := PyStr.ascii_lower body in
      if String.eqb l "inf" || String.eqb l "infinity"
      then Some (S754_infinity neg)
      else if String.eqb l "nan" then Some S754_nan
      else parse_number neg body
  end.

End PyFloat.

Import PyFloat.

(** ** Documents and pydantic models *)

(** A [datetime], known through the string [isoformat()] gives for it. *)
Inductive datetime : Type := Datetime (isoformat : string).

Definition isoformat (d : datetime) : string :=
  match d with Datetime s => s end.

(** The values the handlers put into a [dict]. *)
Inductive value : Type :=
| VNone
| VStr (s : string)
| VInt (z : Z)
| VFloat (f : float)
| VList (l : list string)
| VDatetime (d : datetime).

(** A [dict] with string keys, as passed to Mongo. *)
Abbreviation document := (gmap string value).

Record JournalEntry := {
  je_id : string;
  je_user_id : string;
  je_content : string;
  je_mood_score : option float;
  je_sentiment : option string;
  je_tags : list string;
  je_ai_insights : option string;
  je_privacy_level : string;
  je_created_at : datetime }.

Record JournalEntryCreate := {
  jc_user_id : string;
  jc_content : string;
  jc_tags : list string;
  jc_privacy_level : string }.

Record ChatMessage := {
  cm_id : string;
  cm_user_id : string;
  cm_session_id : string;
  cm_message : string;
  cm_response : string;
  cm_sentiment : option string;
  cm_created_at : datetime }.

Record ChatRequest := {
  cr_user_id : string;
  cr_session_id : string;
  cr_message : string }.

Record MoodCheckIn := {
  mc_id : string;
  mc_user_id : string;
  mc_mood_level : Z;
  mc_stress_level : Z;
  mc_energy_level : Z;
  mc_notes : option string;
  mc_created_at : datetime }.

Record MoodCheckInCreate := {
  mcc_user_id : string;
  mcc_mood_level : Z;
  mcc_stress_level : Z;
  mcc_energy_level : Z;
  mcc_notes : option string }.

Record UserStats := {
  total_entries : nat;
  avg_mood : float;
  avg_stress : float;
  recent_patterns : list string;
  recommendations : list string }.

Definition opt_str (o : option string) : value :=
  match o with Some s => VStr s | None => VNone end.

Definition opt_float (o : option float) : value :=
  match o with Some f => VFloat f | None => VNone end.

(** [model.dict()]: one key per declared field. *)
Definition JournalEntryCreate_dict (e : JournalEntryCreate) : document :=
  <["user_id" := VStr (jc_user_id e)]>
  (<["content" := VStr (jc_content e)]>
  (<["tags" := VList (jc_tags e)]>
  (<["privacy_level" := VStr (jc_privacy_level e)]> ∅))).

Definition JournalEntry_dict (e : JournalEntry) : document :=
  <["id" := VStr (je_id e)]>
  (<["user_id" := VStr (je_user_id e)]>
  (<["content" := VStr (je_content e)]>
  (<["mood_score" := opt_float (je_mood_score e)]>
  (<["sentiment" := opt_str (je_sentiment e)]>
  (<["tags" := VList (je_tags e)]>
  (<["ai_insights" := opt_str (je_ai_insights e)]>
  (<["privacy_level" := VStr (je_privacy_level e)]>
  (<["created_at" := VDatetime (je_created_at e)]> ∅)))))))).

Definition ChatMessage_dict (m : ChatMessage) : document :=
  <["id" := VStr (cm_id m)]>
  (<["user_id" := VStr (cm_user_id m)]>
  (<["session_id" := VStr (cm_session_id m)]>
  (<["message" := VStr (cm_message m)]>
  (<["response" := VStr (cm_response m)]>
  (<["sentiment" := opt_str (cm_sentiment m)]>
  (<["created_at" := VDatetime (cm_created_at m)]> ∅)))))).

Definition MoodCheckInCreate_dict (c : MoodCheckInCreate) : document :=
  <["user_id" := VStr (mcc_user_id c)]>
  (<["mood_level" := VInt (mcc_mood_level c)]>
  (<["stress_level" := VInt (mcc_stress_level c)]>
  (<["energy_level" := VInt (mcc_energy_level c)]>
  (<["notes" := opt_str (mcc_notes c)]> ∅)))).

Definition MoodCheckIn_dict (c : MoodCheckIn) : document :=
  <["id" := VStr (mc_id c)]>
  (<["user_id" := VStr (mc_user_id c)]>
  (<["mood_level" := VInt (mc_mood_level c)]>
  (<["stress_level" := VInt (mc_stress_level c)]>
  (<["energy_level" := VInt (mc_energy_level c)]>
  (<["notes" := opt_str (mc_notes c)]>
  (<["created_at" := VDatetime (mc_created_at c)]> ∅)))))).

(** [prepare_for_mongo]: every [datetime] value becomes its ISO string. *)
Definition prepare_value (v : value) : value :=
  match v with
  | VDatetime d => VStr (isoformat d)
  | _ => v
  end.

Definition prepare_for_mongo (data : document) : document :=
  prepare_value <$> data.

(** A field is set when its key is present with a value other than [None]. *)
Definition non_null (d : document) (key : string) : bool :=
  match d !! key with
  | Some VNone | None => false
  | Some _ => true
  end.

(** ** Effects: gateway, store, uuid, clock, log *)

Inductive collection : Type := journal_entries | chat_messages | mood_checkins.

(** An [LlmChat(...).with_model(provider, model)] client. *)
Record LlmChat := {
  session_id : string;
  system_message : string;
  provider : string;
  model : string }.

(** A Mongo filter [{k1: v1, ...}] on string fields. *)
Abbreviation query := (list (string * string)).

(** Handler code: a tree of effects.  Each effect hands its outcome to the
    continuation; [Raise] is an [Exception] in flight, [RaiseBase] one of
    the other [BaseException]s. *)
Inductive prog (A : Type) : Type :=
| Ret (a : A)
| Raise (e : exn)
| RaiseBase (b : base_exn)
| SendMessage (chat : LlmChat) (text : string) (k : Result string -> prog A)
| InsertOne (c : collection) (d : document) (k : Result unit -> prog A)
| Find (c : collection) (q : query) (sort_key : string) (direction : Z)
       (limit : nat) (k : Result (list document) -> prog A)
| CountDocuments (c : collection) (q : query) (k : Result nat -> prog A)
| Uuid4 (k : string -> prog A)
| UtcNow (k : datetime -> prog A)
| LogError (msg : string) (e : exn) (k : prog A).

Arguments Ret {A} a.
Arguments Raise {A} e.
Arguments RaiseBase {A} b.
Arguments SendMessage {A} chat text k.
Arguments InsertOne {A} c d k.
Arguments Find {A} c q sort_key direction limit k.
Arguments CountDocuments {A} c q k.
Arguments Uuid4 {A} k.
Arguments UtcNow {A} k.
Arguments LogError {A} msg e k.

Fixpoint bind {A B} (p : prog A) (f : A -> prog B) : prog B :=
  match p with
  | Ret a => f a
  | Raise e => Raise e
  | RaiseBase b => RaiseBase b
  | SendMessage chat text k => SendMessage chat text (fun r => bind (k r) f)
  | InsertOne c d k => InsertOne c d (fun r => bind (k r) f)
  | Find c q s dir n k => Find c q s dir n (fun r => bind (k r) f)
  | CountDocuments c q k => CountDocuments c q (fun r => bind (k r) f)
  | Uuid4 k => Uuid4 (fun r => bind (k r) f)
  | UtcNow k => UtcNow (fun r => bind (k r) f)
  | LogError msg e k => LogError msg e (bind k f)
  end.

(** [try: p except Exception as e: h e].  The handler sees the
    exceptions below [Exception]; any other [BaseException] passes. *)
Fixpoint try_except {A} (p : prog A) (h : exn -> prog A) : prog A :=
  match p with
  | Ret a => Ret a
  | Raise e => h e
  | RaiseBase b => RaiseBase b
  | SendMessage chat text k => SendMessage chat text (fun r => try_except (k r) h)
  | InsertOne c d k => InsertOne c d (fun r => try_except (k r) h)
  | Find c q s dir n k => Find c q s dir n (fun r => try_except (k r) h)
  | CountDocuments c q k => CountDocuments c q (fun r => try_except (k r) h)
  | Uuid4 k => Uuid4 (fun r => try_except (k r) h)
  | UtcNow k => UtcNow (fun r => try_except (k r) h)
  | LogError msg e k => LogError msg e (try_except k h)
  end.

#[export] Instance prog_ret : MRet prog := @Ret.
#[export] Instance prog_bind : MBind prog := fun A B f p => bind p f.

(** A pure result enters handler code: [Err e] raises [e]. *)
Definition lift {A} (r : Result A) : prog A :=
  match r with
  | Ok a => Ret a
  | Err e => Raise e
  | ErrBase b => RaiseBase b
  end.

Definition send_message (chat : LlmChat) (text : string) : prog string :=
  SendMessage chat text lift.
Definition insert_one (c : collection) (d : document) : prog unit :=
  InsertOne c d lift.
Definition find (c : collection) (q : query) (sort_key : string)
    (direction : Z) (limit : nat) : prog (list document) :=
  Find c q sort_key direction limit lift.
Definition count_documents (c : collection) (q : query) : prog nat :=
  CountDocuments c q lift.
Definition uuid4 : prog string := Uuid4 Ret.
Definition utcnow : prog datetime := UtcNow Ret.
Definition log_error (msg : string) (e : exn) : prog unit :=
  LogError msg e (Ret tt).

(** *** The record store *)

Record database := {
  db_journal_entries : list document;
  db_chat_messages : list document;
  db_mood_checkins : list document }.

Definition coll_get (c : collection) (db : database) : list document :=
  match c with
  | journal_entries => db_journal_entries db
  | chat_messages => db_chat_messages db
  | mood_checkins => db_mood_checkins db
  end.

(** A successful [insert_one] appends the document to its collection.
    (The [_id] Mongo adds is not modelled; no handler reads it.) *)
Definition coll_insert (c : collection) (d : document) (db : database) : database :=
  match c with
  | journal_entries =>
      {| db_journal_entries := db_journal_entries db ++ [d];
         db_chat_messages := db_chat_messages db;
         db_mood_checkins := db_mood_checkins db |}
  | chat_messages =>
      {| db_journal_entries := db_journal_entries db;
         db_chat_messages := db_chat_messages db ++ [d];
         db_mood_checkins := db_mood_checkins db |}
  | mood_checkins =>
      {| db_journal_entries := db_journal_entries db;
         db_chat_messages := db_chat_messages db;
         db_mood_checkins := db_mood_checkins db ++ [d] |}
  end.

Definition matches (q : query) (d : document) : bool :=
  forallb (fun kv : string * string =>
             match d !! kv.1 with
             | Some (VStr s) => String.eqb s kv.2
             | _ => false
             end) q.

Definition str_field (key : string) (d : document) : string :=
  match d !! key with
  | Some (VStr s) => s
  | _ => EmptyString
  end.

(** Sorting on a string field (the stored [created_at] is an ISO string),
    ascending for direction [1] and descending for [-1]. *)
Definition sort_before (key : string) (direction : Z) (a b : document) : bool :=
  if 0 <=? direction then String.leb (str_field key a) (str_field key b)
  else String.leb (str_field key b) (str_field key a).

Fixpoint sort_insert (key : string) (direction : Z) (x : document)
    (l : list document) : list document :=
  match l with
  | [] => [x]
  | y :: l' =>
      if sort_before key direction x y then x :: l
      else y :: sort_insert key direction x l'
  end.

Definition sort_docs (key : string) (direction : Z) (l : list document)
  : list document :=
  fold_right (sort_insert key direction) [] l.

(** [db.c.find(q).sort(key, direction).limit(n).to_list(n)] *)
Definition run_find (db : database) (c : collection) (q : query)
    (key : string) (direction : Z) (limit : nat) : list document :=
  firstn limit (sort_docs key direction (List.filter (matches q) (coll_get c db))).

(** [db.c.count_documents(q)] *)
Definition run_count (db : database) (c : collection) (q : query) : nat :=
  length (List.filter (matches q) (coll_get c db)).

(** *** The world a handler runs in *)

(** What the outside answers at each tick (the number of effects so far):
    how the call to the gateway ends (a reply, an exception, or the
    request being cancelled while it waits), whether the store is
    reachable, the next uuid and the clock.  A store call that fails
    raises [StoreError]. *)
Record world := {
  w_gateway : nat -> LlmChat -> string -> Result string;
  w_store_up : nat -> bool;
  w_uuid : nat -> string;
  w_now : nat -> datetime }.

Inductive event : Type :=
| EvSend (chat : LlmChat) (text : string) (r : Result string)
| EvInsert (c : collection) (d : document) (ok : bool)
| EvFind (c : collection) (q : query) (ok : bool)
| EvCount (c : collection) (q : query) (ok : bool)
| EvUuid (s : string)
| EvNow (d : datetime)
| EvLog (msg : string) (e : exn).

Record state := {
  st_db : database;
  st_trace : list event }.

Definition emit (ev : event) (st : state) : state :=
  {| st_db := st_db st; st_trace := st_trace st ++ [ev] |}.

(** One effect of [p] is performed. *)
Definition step {A} (w : world) (p : prog A) (st : state)
  : option (prog A * state) :=
  let t := length (st_trace st) in
  match p with
  | Ret _ | Raise _ | RaiseBase _ => None
  | SendMessage chat text k =>
      let r := w_gateway w t chat text in
      Some (k r, emit (EvSend chat text r) st)
  | InsertOne c d k =>
      if w_store_up w t
      then Some (k (Ok tt),
                 {| st_db := coll_insert c d (st_db st);
                    st_trace := st_trace st ++ [EvInsert c d true] |})
      else Some (k (Err StoreError), emit (EvInsert c d false) st)
  | Find c q key dir n k =>
      if w_store_up w t
      then Some (k (Ok (run_find (st_db st) c q key dir n)), emit (EvFind c q true) st)
      else Some (k (Err StoreError), emit (EvFind c q false) st)
  | CountDocuments c q k =>
      if w_store_up w t
      then Some (k (Ok (run_count (st_db st) c q)), emit (EvCount c q true) st)
      else Some (k (Err StoreError), emit (EvCount c q false) st)
  | Uuid4 k => Some (k (w_uuid w t), emit (EvUuid (w_uuid w t)) st)
  | UtcNow k => Some (k (w_now w t), emit (EvNow (w_now w t)) st)
  | LogError msg e k => Some (k, emit (EvLog msg e) st)
  end.

(** The handler runs to its end: what it returns or raises, and the state
    it leaves. *)
Fixpoint exec {A} (w : world) (p : prog A) (st : state) : Result A * state :=
  let t := length (st_trace st) in
  match p with
  | Ret a => (Ok a, st)
  | Raise e => (Err e, st)
  | RaiseBase b => (ErrBase b, st)
  | SendMessage chat text k =>
      let r := w_gateway w t chat text in
      exec w (k r) (emit (EvSend chat text r) st)
  | InsertOne c d k =>
      if w_store_up w t
      then exec w (k (Ok tt))
             {| st_db := coll_insert c d (st_db st);
                st_trace := st_trace st ++ [EvInsert c d true] |}
      else exec w (k (Err StoreError)) (emit (EvInsert c d false) st)
  | Find c q key dir n k =>
      if w_store_up w t
      then exec w (k (Ok (run_find (st_db st) c q key dir n))) (emit (EvFind c q true) st)
      else exec w (k (Err StoreError)) (emit (EvFind c q false) st)
  | CountDocuments c q k =>
      if w_store_up w t
      then exec w (k (Ok (run_count (st_db st) c q))) (emit (EvCount c q true) st)
      else exec w (k (Err StoreError)) (emit (EvCount c q false) st)
  | Uuid4 k => exec w (k (w_uuid w t)) (emit (EvUuid (w_uuid w t)) st)
  | UtcNow k => exec w (k (w_now w t)) (emit (EvNow (w_now w t)) st)
  | LogError msg e k => exec w k (emit (EvLog msg e) st)
  end.

(** Configurations reachable from a start configuration. *)
Inductive steps {A} (w : world) : prog A * state -> prog A * state -> Prop :=
| steps_refl c : steps w c c
| steps_step p st p' st' c :
    step w p st = Some (p', st') -> steps w (p', st') c -> steps w (p, st) c.

(** ** Sentiment extraction *)

Definition get_sentiment_chat : LlmChat :=
  {| session_id := "sentiment-analysis";
     system_message := "You are a mental health AI assistant specializing in sentiment analysis for students. Analyze the emotional tone and provide supportive insights. Be empathetic, non-judgmental, and focus on student wellness.";
     provider := "openai";
     model := "gpt-4o-mini" |}.

Definition get_companion_chat (sid : string) : LlmChat :=
  {| session_id := sid;
     system_message := "You are Serenity, a compassionate AI companion for students dealing with stress, anxiety, and academic pressure. Provide emotional support, coping strategies, and encourage healthy habits. Be warm, understanding, and never provide medical advice. Focus on student wellness and academic balance.";
     provider := "openai";
     model := "gpt-4o-mini" |}.

(** The [dict] that [analyze_sentiment] returns, by key. *)
Record Analysis := {
  sentiment : string;
  mood_score : float;
  insights : string;
  stress_indicators : list string }.

Definition set_sentiment (r : Analysis) (s : string) : Analysis :=
  {| sentiment := s; mood_score := mood_score r;
     insights := insights r; stress_indicators := stress_indicators r |}.
Definition set_mood_score (r : Analysis) (f : float) : Analysis :=
  {| sentiment := sentiment r; mood_score := f;
     insights := insights r; stress_indicators := stress_indicators r |}.
Definition set_insights (r : Analysis) (s : string) : Analysis :=
  {| sentiment := sentiment r; mood_score := mood_score r;
     insights := s; stress_indicators := stress_indicators r |}.
Definition set_stress_indicators (r : Analysis) (l : list string) : Analysis :=
  {| sentiment := sentiment r; mood_score := mood_score r;
     insights := insights r; stress_indicators := l |}.

(** The literal [5.0]. *)
Definition five : float := of_decimal false 50 (-1).

(** The result the parser starts from. *)
Definition parse_default : Analysis :=
  {| sentiment := "neutral";
     mood_score := five;
     insights := "Take care of yourself and remember that it's okay to have ups and downs.";
     stress_indicators := [] |}.

(** The result returned from the [except] branch. *)
Definition failure_default : Analysis :=
  {| sentiment := "neutral";
     mood_score := five;
     insights := "Thank you for sharing. Remember to take care of yourself.";
     stress_indicators := [] |}.

Definition quote : string := String "034" EmptyString.

(** The f-string sent to the model. *)
Definition prompt (content : string) : string :=
  PyStr.join_lines
    [ "";
      "        Analyze the following journal entry from a student and provide:";
      "        1. Sentiment (positive, neutral, negative, mixed)";
      "        2. Mood score (1-10, where 1 is very negative, 10 is very positive)";
      "        3. Brief supportive insight (2-3 sentences)";
      "        4. Any stress indicators detected";
      "        ";
      "        Journal entry: " ]
  ++ quote ++ content ++ quote ++
  PyStr.join_lines
    [ "";
      "        ";
      "        Respond in this format:";
      "        Sentiment: [sentiment]";
      "        Mood Score: [score]";
      "        Insight: [insight]";
      "        Stress Indicators: [indicators or none]";
      "        " ].

(** [line.split(':', 1)[1]] *)
Definition after_colon (line : string) : Result string :=
  match PyStr.split1 ":" line with
  | _ :: x :: _ => Ok x
  | _ => Err IndexError
  end.

(** [float(s)] *)
Definition float_of_str {U : Unicode} (s : string) : Result float :=
  match of_str s with
  | Some f => Ok f
  | None => Err ValueError
  end.

(** The body of [for line in lines].  The bare [except] around [float]
    catches whatever is raised. *)
Definition parse_line {U : Unicode} (result : Analysis) (line : string)
  : Result Analysis :=
  if PyStr.startswith line "Sentiment:" then
    rbind (after_colon line) (fun x =>
    Ok (set_sentiment result (PyStr.lower (PyStr.strip x))))
  else if PyStr.startswith line "Mood Score:" then
    match rbind (after_colon line) (fun x => float_of_str (PyStr.strip x)) with
    | Ok f => Ok (set_mood_score result f)
    | Err _ | ErrBase _ => Ok (set_mood_score result five)
    end
  else if PyStr.startswith line "Insight:" then
    rbind (after_colon line) (fun x =>
    Ok (set_insights result (PyStr.strip x)))
  else if PyStr.startswith line "Stress Indicators:" then
    rbind (after_colon line) (fun x =>
    let indicators_text := PyStr.strip x in
    if negb (String.eqb (PyStr.lower indicators_text) "none")
    then Ok (set_stress_indicators result [indicators_text])
    else Ok result)
  else Ok result.

Fixpoint parse_lines {U : Unicode} (result : Analysis) (lines : list string)
  : Result Analysis :=
  match lines with
  | [] => Ok result
  | line :: rest => rbind (parse_line result line) (fun r => parse_lines r rest)
  end.

(** From [response.strip().split('\n')] to [return result]. *)
Definition parse_response {U : Unicode} (response : string) : Result Analysis :=
  parse_lines parse_default (PyStr.split "010" (PyStr.strip response)).

Definition analyze_sentiment {U : Unicode} (content : string) : prog Analysis :=
  try_except
    (response ← send_message get_sentiment_chat (prompt content);
     lift (parse_response response))
    (fun e =>
       _ ← log_error "Error in sentiment analysis: " e;
       Ret failure_default).

(** ** Model constructors *)

(** Keyword arguments are validated field by field; a field with a
    [default_factory] that is not given calls the factory. *)
Definition kw_str (kw : document) (key : string) : Result string :=
  match kw !! key with
  | Some (VStr s) => Ok s
  | _ => Err ValidationError
  end.

Definition kw_str_default (kw : document) (key dflt : string) : Result string :=
  match kw !! key with
  | Some (VStr s) => Ok s
  | None => Ok dflt
  | Some _ => Err ValidationError
  end.

Definition kw_opt_str (kw : document) (key : string) : Result (option string) :=
  match kw !! key with
  | Some (VStr s) => Ok (Some s)
  | Some VNone | None => Ok None
  | Some _ => Err ValidationError
  end.

Definition kw_opt_float (kw : document) (key : string) : Result (option float) :=
  match kw !! key with
  | Some (VFloat f) => Ok (Some f)
  | Some (VInt z) => Ok (Some (of_int z))
  | Some VNone | None => Ok None
  | Some _ => Err ValidationError
  end.

Definition kw_list (kw : document) (key : string) : Result (list string) :=
  match kw !! key with
  | Some (VList l) => Ok l
  | None => Ok []
  | Some _ => Err ValidationError
  end.

Definition kw_int (kw : document) (key : string) : Result Z :=
  match kw !! key with
  | Some (VInt z) => Ok z
  | _ => Err ValidationError
  end.

Definition kw_id (kw : document) : prog string :=
  match kw !! "id" with
  | Some (VStr s) => Ret s
  | None => uuid4
  | Some _ => Raise ValidationError
  end.

(** A stored string is read as the datetime whose ISO form it is, which
    is what the handlers store under this key. *)
Definition kw_created_at (kw : document) : prog datetime :=
  match kw !! "created_at" with
  | Some (VDatetime d) => Ret d
  | Some (VStr s) => Ret (Datetime s)
  | None => utcnow
  | Some _ => Raise ValidationError
  end.

(** [JournalEntry] built from the keyword arguments [kw]. *)
Definition JournalEntry_init (kw : document) : prog JournalEntry :=
  id ← kw_id kw;
  user_id ← lift (kw_str kw "user_id");
  content ← lift (kw_str kw "content");
  mood ← lift (kw_opt_float kw "mood_score");
  sent ← lift (kw_opt_str kw "sentiment");
  tags ← lift (kw_list kw "tags");
  ai ← lift (kw_opt_str kw "ai_insights");
  privacy ← lift (kw_str_default kw "privacy_level" "private");
  created_at ← kw_created_at kw;
  Ret {| je_id := id; je_user_id := user_id; je_content := content;
         je_mood_score := mood; je_sentiment := sent; je_tags := tags;
         je_ai_insights := ai; je_privacy_level := privacy;
         je_created_at := created_at |}.

(** [ChatMessage(user_id=.., session_id=.., message=.., response=..,
    sentiment=..)] *)
Definition ChatMessage_init (user_id sid message response : string)
    (sent : option string) : prog ChatMessage :=
  id ← uuid4;
  created_at ← utcnow;
  Ret {| cm_id := id; cm_user_id := user_id; cm_session_id := sid;
         cm_message := message; cm_response := response;
         cm_sentiment := sent; cm_created_at := created_at |}.

(** [MoodCheckIn] built from the keyword arguments [kw]. *)
Definition MoodCheckIn_init (kw : document) : prog MoodCheckIn :=
  id ← kw_id kw;
  user_id ← lift (kw_str kw "user_id");
  mood ← lift (kw_int kw "mood_level");
  stress ← lift (kw_int kw "stress_level");
  energy ← lift (kw_int kw "energy_level");
  notes ← lift (kw_opt_str kw "notes");
  created_at ← kw_created_at kw;
  Ret {| mc_id := id; mc_user_id := user_id; mc_mood_level := mood;
         mc_stress_level := stress; mc_energy_level := energy;
         mc_notes := notes; mc_created_at := created_at |}.

(** ** Routes *)

(** [entry_dict.update({...})] with the three analysis fields. *)
Definition with_analysis (entry_dict : document) (analysis : Analysis) : document :=
  <["ai_insights" := VStr (insights analysis)]>
  (<["sentiment" := VStr (sentiment analysis)]>
  (<["mood_score" := VFloat (mood_score analysis)]> entry_dict)).

(** [POST /journal] *)
Definition create_journal_entry {U : Unicode} (entry : JournalEntryCreate)
  : prog JournalEntry :=
  try_except
    (analysis ← analyze_sentiment (jc_content entry);
     let entry_dict := with_analysis (JournalEntryCreate_dict entry) analysis in
     journal_entry ← JournalEntry_init entry_dict;
     let entry_to_store := prepare_for_mongo (JournalEntry_dict journal_entry) in
     _ ← insert_one journal_entries entry_to_store;
     Ret journal_entry)
    (fun e =>
       _ ← log_error "Error creating journal entry: " e;
       Raise (HTTPException 500 "Failed to create journal entry")).

(** [POST /chat] *)
Definition chat_with_companion {U : Unicode} (chat_req : ChatRequest)
  : prog ChatMessage :=
  try_except
    (let chat := get_companion_chat (cr_session_id chat_req) in
     ai_response ← send_message chat (cr_message chat_req);
     analysis ← analyze_sentiment (cr_message chat_req);
     chat_message ← ChatMessage_init (cr_user_id chat_req)
                      (cr_session_id chat_req) (cr_message chat_req)
                      ai_response (Some (sentiment analysis));
     let message_to_store := prepare_for_mongo (ChatMessage_dict chat_message) in
     _ ← insert_one chat_messages message_to_store;
     Ret chat_message)
    (fun e =>
       _ ← log_error "Error in chat: " e;
       Raise (HTTPException 500 "Failed to process chat message")).

(** [POST /mood-checkin] *)
Definition create_mood_checkin (checkin : MoodCheckInCreate) : prog MoodCheckIn :=
  try_except
    (mood_checkin ← MoodCheckIn_init (MoodCheckInCreate_dict checkin);
     let checkin_to_store := prepare_for_mongo (MoodCheckIn_dict mood_checkin) in
     _ ← insert_one mood_checkins checkin_to_store;
     Ret mood_checkin)
    (fun e =>
       _ ← log_error "Error creating mood check-in: " e;
       Raise (HTTPException 500 "Failed to create mood check-in")).

(** ** Wellness analytics *)

(** The literals [3.0], [3.5] and [2.5]. *)
Definition three : float := of_decimal false 30 (-1).
Definition three_half : float := of_decimal false 35 (-1).
Definition two_half : float := of_decimal false 25 (-1).

(** [c[key]] for an integer sample. *)
Definition int_field (key : string) (c : document) : Result Z :=
  match c !! key with
  | Some (VInt z) => Ok z
  | Some _ => Err TypeError
  | None => Err KeyError
  end.

(** [sum(c[key] for c in l)] *)
Fixpoint sum_field (key : string) (l : list document) : Result Z :=
  match l with
  | [] => Ok 0
  | c :: l' =>
      rbind (int_field key c) (fun z =>
      rbind (sum_field key l') (fun s => Ok (z + s)))
  end.

(** [sum(c[key] for c in l) / len(l) if l else 3.0] *)
Definition average (key : string) (l : list document) : Result float :=
  match l with
  | [] => Ok three
  | _ => rbind (sum_field key l) (fun s => truediv s (Z.of_nat (length l)))
  end.

Definition rec_breaks : string := "Consider taking regular breaks during study sessions".
Definition rec_breathing : string := "Try deep breathing exercises when feeling overwhelmed".
Definition rec_joy : string := "Engage in activities that bring you joy".
Definition rec_reach_out : string := "Consider reaching out to friends or counselors".
Definition rec_keep_up : string := "Keep up the great work on your wellness journey!".

Definition pat_stress : string := "Elevated stress levels detected".
Definition pat_positive : string := "Generally positive mood".
Definition pat_lower : string := "Lower mood levels - consider self-care".

Definition make_recommendations (avg_mood avg_stress : float) : list string :=
  let r0 : list string := [] in
  let r1 := if gtb avg_stress three_half
            then ((r0 ++ [rec_breaks]) ++ [rec_breathing])%list else r0 in
  let r2 := if ltb avg_mood two_half
            then ((r1 ++ [rec_joy]) ++ [rec_reach_out])%list else r1 in
  match r2 with
  | [] => (r2 ++ [rec_keep_up])%list
  | _ => r2
  end.

Definition make_recent_patterns (avg_mood avg_stress : float) : list string :=
  let p0 : list string := [] in
  let p1 := if gtb avg_stress three_half then (p0 ++ [pat_stress])%list else p0 in
  if gtb avg_mood three_half then (p1 ++ [pat_positive])%list
  else if ltb avg_mood two_half then (p1 ++ [pat_lower])%list
  else p1.

(** From the two averages to the response. *)
Definition user_stats (total : nat) (avg_mood avg_stress : float) : UserStats :=
  {| total_entries := total;
     avg_mood := round1 avg_mood;
     avg_stress := round1 avg_stress;
     recent_patterns := make_recent_patterns avg_mood avg_stress;
     recommendations := make_recommendations avg_mood avg_stress |}.

(** [GET /stats/{user_id}] *)
Definition get_user_stats (user_id : string) : prog UserStats :=
  try_except
    (total ← count_documents journal_entries [("user_id", user_id)];
     recent_checkins ← find mood_checkins [("user_id", user_id)] "created_at" (-1) 10;
     avg_m ← lift (average "mood_level" recent_checkins);
     avg_s ← lift (average "stress_level" recent_checkins);
     Ret (user_stats total avg_m avg_s))
    (fun e =>
       _ ← log_error "Error fetching user stats: " e;
       Raise (HTTPException 500 "Failed to fetch user statistics")).

(** ** Vocabulary of the statements *)

(** The four labels the parser looks for, and the prefix of each. *)
Inductive label : Type := LSentiment | LMoodScore | LInsight | LStress.

Definition prefix_of (lab : label) : string :=
  match lab with
  | LSentiment => "Sentiment:"
  | LMoodScore => "Mood Score:"
  | LInsight => "Insight:"
  | LStress => "Stress Indicators:"
  end.

(** The line starts with one of the four prefixes. *)
Definition recognized (line : string) : bool :=
  PyStr.startswith line "Sentiment:"
  || PyStr.startswith line "Mood Score:"
  || PyStr.startswith line "Insight:"
  || PyStr.startswith line "Stress Indicators:".

(** The line assigns the field of [lab]: it carries the prefix, and for
    the stress indicators its text is not [none]. *)
Definition sets {U : Unicode} (lab : label) (line : string) : bool :=
  PyStr.startswith line (prefix_of lab)
  && match lab, after_colon line with
     | LStress, Ok x => negb (String.eqb (PyStr.lower (PyStr.strip x)) "none")
     | LStress, _ => false
     | _, _ => true
     end.

Definition get_field (lab : label) (r : Analysis) : value :=
  match lab with
  | LSentiment => VStr (sentiment r)
  | LMoodScore => VFloat (mood_score r)
  | LInsight => VStr (insights r)
  | LStress => VList (stress_indicators r)
  end.

(** The lines the parser iterates over. *)
Definition lines_of (response : string) : list string :=
  PyStr.split "010" (PyStr.strip response).

(** The reply, without the white space around it, is the text of
    [lines] joined by newlines, no line holding a newline itself. *)
Definition reply_lines (response : string) (lines : list string) : bool :=
  String.eqb (PyStr.strip response) (PyStr.join_lines lines)
  && forallb (fun l => negb (PyStr.contains l "010")) lines.

(** The Unicode data of the examples.  Their texts are ASCII, for which
    it is not consulted ([parse_response_ascii]). *)
#[export] Instance ascii_only : Unicode :=
  {| unicode_lower := fun s => s; unicode_decimal := fun s => s |}.

(** What the gateway answers to the analysis prompt sent from [st]. *)
Definition analysis_reply (w : world) (content : string) (st : state) : Result string :=
  w_gateway w (length (st_trace st)) get_sentiment_chat (prompt content).

(** Requests served one after the other. *)
Inductive request : Type :=
| PostJournal (entry : JournalEntryCreate)
| PostChat (chat_req : ChatRequest)
| PostMoodCheckin (checkin : MoodCheckInCreate)
| GetStats (user_id : string).

Definition serve {U : Unicode} (w : world) (req : request) (st : state) : state :=
  match req with
  | PostJournal entry => (exec w (create_journal_entry entry) st).2
  | PostChat chat_req => (exec w (chat_with_companion chat_req) st).2
  | PostMoodCheckin checkin => (exec w (create_mood_checkin checkin) st).2
  | GetStats user_id => (exec w (get_user_stats user_id) st).2
  end.

Definition serve_all {U : Unicode} (w : world) (reqs : list request) (st : state)
  : state :=
  fold_left (fun s req => serve w req s) reqs st.

Definition empty_db : database :=
  {| db_journal_entries := []; db_chat_messages := []; db_mood_checkins := [] |}.

Definition init_state : state := {| st_db := empty_db; st_trace := [] |}.

(** A stored journal entry has its sentiment label and its mood score; a
    stored chat turn has its sentiment label. *)
Definition journal_doc_ok (d : document) : bool :=
  non_null d "sentiment" && non_null d "mood_score".

Definition chat_doc_ok (d : document) : bool := non_null d "sentiment".

Definition store_ok (db : database) : Prop :=
  Forall (fun d => journal_doc_ok d = true) (db_journal_entries db) /\
  Forall (fun d => chat_doc_ok d = true) (db_chat_messages db).

(** The document [create_journal_entry] stores for [entry] once the
    analysis [a], the uuid and the clock are known. *)
Definition journal_document (entry : JournalEntryCreate) (a : Analysis)
    (id : string) (now : datetime) : document :=
  prepare_for_mongo (JournalEntry_dict
    {| je_id := id; je_user_id := jc_user_id entry;
       je_content := jc_content entry;
       je_mood_score := Some (mood_score a);
       je_sentiment := Some (sentiment a);
       je_tags := jc_tags entry;
       je_ai_insights := Some (insights a);
       je_privacy_level := jc_privacy_level entry;
       je_created_at := now |}).

(** The integer nearest to [10 * s / n], ties to the even integer
    ([0 < n]): the exact mean in tenths. *)
Definition nearest_tenth_even (s n : Z) : Z :=
  let q := (10 * s) / n in
  match (2 * ((10 * s) mod n)) ?= n with
  | Lt => q
  | Gt => q + 1
  | Eq => if Z.even q then q else q + 1
  end.

(** The float written [k / 10] in decimal, as in [3.7]. *)
Definition tenths (k : Z) : float := of_decimal false k (-1).

(** A stored check-in of user [u] with the given samples. *)
Definition checkin_doc (u : string) (mood stress : Z) (at_ : string) : document :=
  prepare_for_mongo (MoodCheckIn_dict
    {| mc_id := "c"; mc_user_id := u; mc_mood_level := mood;
       mc_stress_level := stress; mc_energy_level := 3;
       mc_notes := None; mc_created_at := Datetime at_ |}).

(** A world whose gateway always gives the same outcome, with the store up. *)
Definition constant_world (reply : Result string) : world :=
  {| w_gateway := fun _ _ _ => reply;
     w_store_up := fun _ => true;
     w_uuid := fun _ => "00000000-0000-4000-8000-000000000000";
     w_now := fun _ => Datetime "2025-01-01T00:00:00+00:00" |}.

(** The mood score a [Mood Score:] line with text [s] assigns. *)
Definition float_or_five {U : Unicode} (s : string) : float :=
  match of_str s with
  | Some f => f
  | None => five
  end.

(** What one iteration of the loop does, by the shape of the line. *)
Inductive line_effect {U : Unicode} (result : Analysis) (line : string)
  : Analysis -> Prop :=
| le_sentiment rest :
    line = "Sentiment:" ++ rest ->
    line_effect result line
      (set_sentiment result (PyStr.lower (PyStr.strip rest)))
| le_mood rest :
    line = "Mood Score:" ++ rest ->
    line_effect result line
      (set_mood_score result (float_or_five (PyStr.strip rest)))
| le_insight rest :
    line = "Insight:" ++ rest ->
    line_effect result line (set_insights result (PyStr.strip rest))
| le_stress rest :
    line = "Stress Indicators:" ++ rest ->
    String.eqb (PyStr.lower (PyStr.strip rest)) "none" = false ->
    line_effect result line
      (set_stress_indicators result [PyStr.strip rest])
| le_stress_none rest :
    line = "Stress Indicators:" ++ rest ->
    String.eqb (PyStr.lower (PyStr.strip rest)) "none" = true ->
    line_effect result line result
| le_other :
    recognized line = false ->
    line_effect result line result.

(** The state once the analysis prompt for [content] was sent from [st]
    and the gateway answered [r]. *)
Definition sent (content : string) (st : state) (r : Result string) : state :=
  emit (EvSend get_sentiment_chat (prompt content) r) st.

(** The value a line [prefix_of lab ++ rest] assigns to the field of [lab]. *)
Definition assigned {U : Unicode} (lab : label) (rest : string) : value :=
  match lab with
  | LSentiment => VStr (PyStr.lower (PyStr.strip rest))
  | LMoodScore => VFloat (float_or_five (PyStr.strip rest))
  | LInsight => VStr (PyStr.strip rest)
  | LStress => VList [PyStr.strip rest]
  end.

(** No line of the reply starts with one of the four prefixes. *)
Definition no_recognized_line (response : string) : bool :=
  forallb (fun l => negb (recognized l)) (lines_of response).

#[export] Instance float_eq_dec : EqDecision float.
Proof. solve_decision. Defined.

(** For [n] samples with sum [s]: [round(s / n, 1)] is the float of the
    nearest tenth of the exact mean, ties to even. *)
Definition rounds_as_exact (s n : Z) : bool :=
  match truediv s n with
  | Ok a => bool_decide (round1 a = tenths (nearest_tenth_even s n))
  | _ => false
  end.

(** A store holding the given mood check-ins and nothing else. *)
Definition state_with_checkins (docs : list document) : state :=
  {| st_db := {| db_journal_entries := []; db_chat_messages := [];
                 db_mood_checkins := docs |};
     st_trace := [] |}.

(** The literals [2.0] and [4.0]. *)
Definition two : float := of_decimal false 20 (-1).
Definition four : float := of_decimal false 40 (-1).

(** What is left of [create_journal_entry] once the analysis returned. *)
Definition store_entry (entry : JournalEntryCreate) (analysis : Analysis)
  : prog JournalEntry :=
  try_except
    (let entry_dict := with_analysis (JournalEntryCreate_dict entry) analysis in
     journal_entry ← JournalEntry_init entry_dict;
     let entry_to_store := prepare_for_mongo (JournalEntry_dict journal_entry) in
     _ ← insert_one journal_entries entry_to_store;
     Ret journal_entry)
    (fun e =>
       _ ← log_error "Error creating journal entry: " e;
       Raise (HTTPException 500 "Failed to create journal entry")).

(** What a document must carry to enter a collection. *)
Definition doc_ok (c : collection) (d : document) : Prop :=
  match c with
  | journal_entries => journal_doc_ok d = true
  | chat_messages => chat_doc_ok d = true
  | mood_checkins => True
  end.

(** Every [insert_one] the code can reach writes a document satisfying [P]. *)
Inductive writes_only {A : Type} (P : collection -> document -> Prop)
  : prog A -> Prop :=
| wo_ret a : writes_only P (Ret a)
| wo_raise e : writes_only P (Raise e)
| wo_raise_base b : writes_only P (RaiseBase b)
| wo_send chat text k :
    (forall r, writes_only P (k r)) -> writes_only P (SendMessage chat text k)
| wo_insert c d k :
    P c d -> (forall r, writes_only P (k r)) -> writes_only P (InsertOne c d k)
| wo_find c q key dir n k :
    (forall r, writes_only P (k r)) -> writes_only P (Find c q key dir n k)
| wo_count c q k :
    (forall r, writes_only P (k r)) -> writes_only P (CountDocuments c q k)
| wo_uuid k :
    (forall r, writes_only P (k r)) -> writes_only P (Uuid4 k)
| wo_now k :
    (forall r, writes_only P (k r)) -> writes_only P (UtcNow k)
| wo_log msg e k :
    writes_only P k -> writes_only P (LogError msg e k).

(** A chat request and a journal entry used in the examples. *)
Definition sample_chat : ChatRequest :=
  {| cr_user_id := "alice"; cr_session_id := "s-1";
     cr_message := "I am worried about tomorrow." |}.

Definition sample_entry : JournalEntryCreate :=
  {| jc_user_id := "alice"; jc_content := "Finished the lab report.";
     jc_tags := ["lab"]; jc_privacy_level := "private" |}.

(** ** The read routes *)

(** [ChatMessage] built from the keyword arguments [kw]. *)
Definition ChatMessage_of_kw (kw : document) : prog ChatMessage :=
  id ← kw_id kw;
  user_id ← lift (kw_str kw "user_id");
  sid ← lift (kw_str kw "session_id");
  message ← lift (kw_str kw "message");
  response ← lift (kw_str kw "response");
  sent ← lift (kw_opt_str kw "sentiment");
  created_at ← kw_created_at kw;
  Ret {| cm_id := id; cm_user_id := user_id; cm_session_id := sid;
         cm_message := message; cm_response := response;
         cm_sentiment := sent; cm_created_at := created_at |}.

(** The list comprehension [[f(x) for x in l]]. *)
Fixpoint for_each {A B : Type} (f : A -> prog B) (l : list A) : prog (list B) :=
  match l with
  | [] => Ret []
  | x :: l' =>
      y ← f x;
      ys ← for_each f l';
      Ret (y :: ys)
  end.

(** The length given to [to_list]: a negative one is refused before the
    store is asked. *)
Definition to_list_length (limit : Z) : prog nat :=
  if limit <? 0 then Raise ValueError else Ret (Z.to_nat limit).

(** [GET /journal/{user_id}] *)
Definition get_journal_entries (user_id : string) (limit : Z)
  : prog (list JournalEntry) :=
  try_except
    (n ← to_list_length limit;
     entries ← find journal_entries [("user_id", user_id)] "created_at" (-1) n;
     for_each JournalEntry_init entries)
    (fun e =>
       _ ← log_error "Error fetching journal entries: " e;
       Raise (HTTPException 500 "Failed to fetch journal entries")).

(** [GET /chat/{user_id}/{session_id}] *)
Definition get_chat_history (user_id sid : string) (limit : Z)
  : prog (list ChatMessage) :=
  try_except
    (n ← to_list_length limit;
     messages ← find chat_messages [("user_id", user_id); ("session_id", sid)]
                  "created_at" 1 n;
     for_each ChatMessage_of_kw messages)
    (fun e =>
       _ ← log_error "Error fetching chat history: " e;
       Raise (HTTPException 500 "Failed to fetch chat history")).

(** [GET /mood-checkin/{user_id}] *)
Definition get_mood_checkins (user_id : string) (limit : Z)
  : prog (list MoodCheckIn) :=
  try_except
    (n ← to_list_length limit;
     checkins ← find mood_checkins [("user_id", user_id)] "created_at" (-1) n;
     for_each MoodCheckIn_init checkins)
    (fun e =>
       _ ← log_error "Error fetching mood check-ins: " e;
       Raise (HTTPException 500 "Failed to fetch mood check-ins")).

(** ** Vocabulary of the further statements *)

(** The handler leaves the store as it found it. *)
Definition read_only {A : Type} (p : prog A) : Prop :=
  forall (w : world) (st : state), st_db (exec w p st).2 = st_db st.


(** The entry [create_journal_entry] returns for [entry] once the
    analysis [a], the uuid and the clock are known. *)
Definition journal_entry_of (entry : JournalEntryCreate) (a : Analysis)
    (id : string) (now : datetime) : JournalEntry :=
  {| je_id := id; je_user_id := jc_user_id entry;
     je_content := jc_content entry;
     je_mood_score := Some (mood_score a);
     je_sentiment := Some (sentiment a);
     je_tags := jc_tags entry;
     je_ai_insights := Some (insights a);
     je_privacy_level := jc_privacy_level entry;
     je_created_at := now |}.

(** The chat turn [chat_with_companion] returns. *)
Definition chat_message_of (chat_req : ChatRequest) (response : string)
    (a : Analysis) (id : string) (now : datetime) : ChatMessage :=
  {| cm_id := id; cm_user_id := cr_user_id chat_req;
     cm_session_id := cr_session_id chat_req;
     cm_message := cr_message chat_req;
     cm_response := response;
     cm_sentiment := Some (sentiment a);
     cm_created_at := now |}.

(** The check-in [create_mood_checkin] returns. *)
Definition mood_checkin_of (c : MoodCheckInCreate) (id : string)
    (now : datetime) : MoodCheckIn :=
  {| mc_id := id; mc_user_id := mcc_user_id c;
     mc_mood_level := mcc_mood_level c;
     mc_stress_level := mcc_stress_level c;
     mc_energy_level := mcc_energy_level c;
     mc_notes := mcc_notes c;
     mc_created_at := now |}.

(** For [n] samples with sum [s]: the rounded average lies between 1.0
    and 5.0. *)
Definition average_in_range (s n : Z) : bool :=
  match truediv s n with
  | Ok a => leb (tenths 10) (round1 a) && leb (round1 a) (tenths 50)
  | _ => false
  end.

(** The insight has no white space around it; there is at most one
    stress indicator, without white space around it and never the text
    "none". *)
Definition well_formed {U : Unicode} (r : Analysis) : Prop :=
  PyStr.strip (insights r) = insights r /\
  (stress_indicators r = [] \/
   exists t, stress_indicators r = [t] /\ PyStr.strip t = t /\
             PyStr.lower t <> "none").

(** A label without upper-case ASCII letters and without white space
    around it. *)
Definition plain_label (s : string) : Prop :=
  PyStr.ascii_lower s = s /\ PyStr.strip s = s.

(** * Properties *)

(** ** The string methods *)

Section StrFacts.

Context {U : Unicode}.

Lemma startswith_app (p rest : string) :
  PyStr.startswith (p ++ rest) p = true.
Proof.
  induction p as [|c p IH]; simpl.
  - by destruct rest.
  - rewrite Ascii.eqb_refl. exact IH.
Qed.

Lemma startswith_inv (p s : string) :
  PyStr.startswith s p = true -> exists rest, s = p ++ rest.
Proof.
  revert s. induction p as [|c p IH]; intros s H; simpl in *.
  - exists s. reflexivity.
  - destruct s as [|b s]; [discriminate|].
    apply andb_prop in H as [Hc Hs].
    apply Ascii.eqb_eq in Hc. subst b.
    destruct (IH _ Hs) as [rest ->]. exists rest. reflexivity.
Qed.

(** [strip] removes the no-break space U+00A0 and the em space U+2003
    as it removes the ASCII white space; [float] skips the C white space
    only, which leaves out the separator FS that [strip] removes. *)
Example strip_wide_space :
  PyStr.strip (PyStr.utf8 [194; 160]%nat ++ " Sentiment: happy"
               ++ PyStr.utf8 [226; 128; 131]%nat ++ String "010" EmptyString)
  = "Sentiment: happy".
Proof. reflexivity. Qed.

Example float_white_space :
  of_str (String "009" " 8.5 ") = Some (of_decimal false 85 (-1)) /\
  of_str (String "028" "8.5") = None /\
  PyStr.strip (String "028" "8.5") = "8.5".
Proof. repeat split; reflexivity. Qed.

(** [split] never yields the empty list, as in Python. *)
Lemma split_nonempty (sep : ascii) (s : string) : PyStr.split sep s <> [].
Proof.
  induction s as [|c s IH]; simpl; [discriminate|].
  destruct (Ascii.eqb c sep); [discriminate|].
  destruct (PyStr.split sep s); [contradiction|discriminate].
Qed.

Lemma split_no_sep (sep : ascii) (l : string) :
  PyStr.contains l sep = false -> PyStr.split sep l = [l].
Proof.
  induction l as [|c l IH]; simpl; [done|].
  intros H. apply orb_false_elim in H as [Hc Hl].
  by rewrite Hc, (IH Hl).
Qed.

Lemma split_app_sep (sep : ascii) (l rest : string) :
  PyStr.contains l sep = false ->
  PyStr.split sep (l ++ String sep rest) = l :: PyStr.split sep rest.
Proof.
  induction l as [|c l IH]; simpl.
  - by rewrite Ascii.eqb_refl.
  - intros H. apply orb_false_elim in H as [Hc Hl].
    by rewrite Hc, (IH Hl).
Qed.

(** Splitting at the newlines gives back the lines that were joined. *)
Lemma split_join_lines (l : string) (ls : list string) :
  forallb (fun l => negb (PyStr.contains l "010")) (l :: ls) = true ->
  PyStr.split "010" (PyStr.join_lines (l :: ls)) = l :: ls.
Proof.
  revert l. induction ls as [|l2 ls IH]; intros l H;
    cbn [forallb] in H; apply andb_prop in H as [Hl Hls];
    apply negb_true_iff in Hl.
  - by apply split_no_sep.
  - change (PyStr.join_lines (l :: l2 :: ls))
      with (l ++ String "010" (PyStr.join_lines (l2 :: ls))).
    rewrite split_app_sep by done. f_equal. by apply IH.
Qed.

(** The loop runs over the lines of the reply. *)
Lemma lines_of_reply (response : string) (lines : list string) :
  reply_lines response lines = true -> lines <> [] ->
  lines_of response = lines.
Proof.
  unfold reply_lines, lines_of. intros H Hne.
  apply andb_prop in H as [He Hl]. apply String.eqb_eq in He. rewrite He.
  destruct lines as [|l ls]; [done|]. by apply split_join_lines.
Qed.

End StrFacts.

(** ** The reply parser *)

Section Parser.

Context {U : Unicode}.

(** The text after the colon of a recognized line. *)
Lemma after_colon_prefix (lab : label) (rest : string) :
  after_colon (prefix_of lab ++ rest) = Ok rest.
Proof. destruct lab; reflexivity. Qed.

(** The four prefixes exclude one another, so the [elif] chain takes
    the branch of the prefix the line has. *)
Lemma startswith_other (lab lab' : label) (rest : string) :
  lab <> lab' ->
  PyStr.startswith (prefix_of lab ++ rest) (prefix_of lab') = false.
Proof. destruct lab, lab'; intros H; try reflexivity; contradiction. Qed.

Lemma parse_line_effect (result : Analysis) (line : string) :
  exists r, parse_line result line = Ok r /\ line_effect result line r.
Proof.
  unfold parse_line.
  destruct (PyStr.startswith line "Sentiment:") eqn:H1.
  { apply startswith_inv in H1 as [rest ->].
    rewrite (after_colon_prefix LSentiment). simpl.
    eexists; split; [reflexivity|]. by eapply le_sentiment. }
  destruct (PyStr.startswith line "Mood Score:") eqn:H2.
  { apply startswith_inv in H2 as [rest ->].
    rewrite (after_colon_prefix LMoodScore). simpl.
    unfold float_of_str.
    exists (set_mood_score result (float_or_five (PyStr.strip rest))).
    split; [|by eapply le_mood].
    unfold float_or_five. by destruct (of_str (PyStr.strip rest)). }
  destruct (PyStr.startswith line "Insight:") eqn:H3.
  { apply startswith_inv in H3 as [rest ->].
    rewrite (after_colon_prefix LInsight). simpl.
    eexists; split; [reflexivity|]. by eapply le_insight. }
  destruct (PyStr.startswith line "Stress Indicators:") eqn:H4.
  { apply startswith_inv in H4 as [rest ->].
    rewrite (after_colon_prefix LStress). simpl.
    destruct (String.eqb (PyStr.lower (PyStr.strip rest)) "none") eqn:Hn; simpl.
    - eexists; split; [reflexivity|]. by eapply le_stress_none.
    - eexists; split; [reflexivity|]. by eapply le_stress. }
  exists result. split; [reflexivity|].
  apply le_other. unfold recognized. by rewrite H1, H2, H3, H4.
Qed.

(** The loop body never raises. *)
Lemma parse_line_total (result : Analysis) (line : string) :
  exists r, parse_line result line = Ok r.
Proof. destruct (parse_line_effect result line) as (r & H & _). eauto. Qed.

Lemma parse_lines_total (lines : list string) (result : Analysis) :
  exists r, parse_lines result lines = Ok r.
Proof.
  revert result. induction lines as [|l ls IH]; intros result; simpl.
  - eauto.
  - destruct (parse_line_total result l) as [r ->]. simpl. apply IH.
Qed.

Lemma parse_response_total (response : string) :
  exists r, parse_response response = Ok r.
Proof. apply parse_lines_total. Qed.

Lemma parse_lines_app (l1 l2 : list string) (result : Analysis) :
  parse_lines result (l1 ++ l2) =
  rbind (parse_lines result l1) (fun r => parse_lines r l2).
Proof.
  revert result. induction l1 as [|l l1 IH]; intros result; simpl.
  - reflexivity.
  - destruct (parse_line result l); simpl; [apply IH|reflexivity..].
Qed.

Lemma sets_own (lab : label) (rest : string) :
  sets lab (prefix_of lab ++ rest) =
  match lab with
  | LStress => negb (String.eqb (PyStr.lower (PyStr.strip rest)) "none")
  | _ => true
  end.
Proof.
  unfold sets. rewrite startswith_app, after_colon_prefix. by destruct lab.
Qed.

(** A line that does not assign a field leaves it as it was. *)
Lemma parse_line_frame (lab : label) (result r : Analysis) (line : string) :
  sets lab line = false ->
  parse_line result line = Ok r ->
  get_field lab r = get_field lab result.
Proof.
  intros Hs Hp.
  destruct (parse_line_effect result line) as (r' & Hr' & He).
  rewrite Hp in Hr'. injection Hr' as <-.
  destruct He as [rest ->|rest ->|rest ->|rest -> Hn|rest -> Hn|Hrec];
    try reflexivity; destruct lab; try reflexivity; exfalso.
  - change ("Sentiment:" ++ rest) with (prefix_of LSentiment ++ rest) in Hs.
    by rewrite sets_own in Hs.
  - change ("Mood Score:" ++ rest) with (prefix_of LMoodScore ++ rest) in Hs.
    by rewrite sets_own in Hs.
  - change ("Insight:" ++ rest) with (prefix_of LInsight ++ rest) in Hs.
    by rewrite sets_own in Hs.
  - change ("Stress Indicators:" ++ rest) with (prefix_of LStress ++ rest) in Hs.
    rewrite sets_own, Hn in Hs. done.
Qed.

(** A line that assigns a field decides it, whatever was there before. *)
Lemma parse_line_sets (lab : label) (result result' r r' : Analysis) (line : string) :
  sets lab line = true ->
  parse_line result line = Ok r ->
  parse_line result' line = Ok r' ->
  get_field lab r = get_field lab r'.
Proof.
  intros Hs Hp Hp'.
  apply andb_prop in Hs as [Hpre Hs].
  apply startswith_inv in Hpre as [rest ->].
  rewrite after_colon_prefix in Hs.
  unfold parse_line in Hp, Hp'.
  destruct lab; simpl prefix_of in *.
  - rewrite (startswith_app "Sentiment:"), (after_colon_prefix LSentiment) in Hp, Hp'.
    simpl in Hp, Hp'. by simplify_eq.
  - rewrite (startswith_other LMoodScore LSentiment) in Hp, Hp' by done.
    rewrite (startswith_app "Mood Score:"), (after_colon_prefix LMoodScore) in Hp, Hp'.
    simpl in Hp, Hp'.
    destruct (float_of_str (PyStr.strip rest)); by simplify_eq.
  - rewrite (startswith_other LInsight LSentiment) in Hp, Hp' by done.
    rewrite (startswith_other LInsight LMoodScore) in Hp, Hp' by done.
    rewrite (startswith_app "Insight:"), (after_colon_prefix LInsight) in Hp, Hp'.
    simpl in Hp, Hp'. by simplify_eq.
  - rewrite (startswith_other LStress LSentiment) in Hp, Hp' by done.
    rewrite (startswith_other LStress LMoodScore) in Hp, Hp' by done.
    rewrite (startswith_other LStress LInsight) in Hp, Hp' by done.
    rewrite (startswith_app "Stress Indicators:"), (after_colon_prefix LStress) in Hp, Hp'.
    simpl in Hp, Hp'. rewrite Hs in Hp, Hp'. by simplify_eq.
Qed.

Lemma parse_lines_frame (lab : label) (lines : list string) (result r : Analysis) :
  Forall (fun l => sets lab l = false) lines ->
  parse_lines result lines = Ok r ->
  get_field lab r = get_field lab result.
Proof.
  intros Hall. revert result.
  induction Hall as [|l ls Hl _ IH]; intros result Hp; simpl in Hp.
  - by simplify_eq.
  - destruct (parse_line result l) as [r1| |] eqn:H1; simpl in Hp; [|done..].
    rewrite (IH _ Hp). by eapply parse_line_frame.
Qed.

(** The last line that assigns a field decides it. *)
Lemma parse_lines_last_setter (lab : label) (before after : list string)
    (line : string) (result r r1 : Analysis) :
  sets lab line = true ->
  Forall (fun l => sets lab l = false) after ->
  parse_lines result (before ++ line :: after) = Ok r ->
  parse_line parse_default line = Ok r1 ->
  get_field lab r = get_field lab r1.
Proof.
  intros Hs Hafter Hp H1.
  rewrite parse_lines_app in Hp.
  destruct (parse_lines result before) as [rb| |] eqn:Hb; simpl in Hp; [|done..].
  destruct (parse_line rb line) as [rl| |] eqn:Hl; simpl in Hp; [|done..].
  rewrite (parse_lines_frame lab after rl r Hafter Hp).
  by eapply parse_line_sets.
Qed.

Lemma parse_line_unrecognized (result : Analysis) (line : string) :
  recognized line = false -> parse_line result line = Ok result.
Proof.
  unfold recognized, parse_line. intros H.
  repeat (apply orb_false_elim in H as [H ?]).
  by rewrite H, H2, H1, H0.
Qed.

Lemma parse_lines_unrecognized (lines : list string) (result : Analysis) :
  Forall (fun l => recognized l = false) lines ->
  parse_lines result lines = Ok result.
Proof.
  induction 1 as [|l ls Hl _ IH]; simpl; [done|].
  by rewrite parse_line_unrecognized.
Qed.

End Parser.

(** ** ASCII text *)

(** Text within ASCII stays within ASCII under the methods the parser
    uses, so the parse of an ASCII reply is the same whatever the
    Unicode data: the examples below, whose texts are ASCII, do not
    depend on the data they are run with. *)
Section AsciiText.

Variables U1 U2 : Unicode.

Lemma space_width_ascii (c : ascii) (s : string) :
  PyStr.is_ascii_char c = true ->
  PyStr.space_width (String c s) = if PyStr.ascii_space c then 1%nat else 0%nat.
Proof.
  destruct c as [[] [] [] [] [] [] [] []]; intros H; try discriminate H;
    reflexivity.
Qed.

Lemma lstrip_ascii_cons (c : ascii) (s : string) :
  PyStr.is_ascii_char c = true ->
  PyStr.lstrip (String c s) = if PyStr.ascii_space c then PyStr.lstrip s else String c s.
Proof.
  intros H. cbn [PyStr.lstrip]. rewrite (space_width_ascii c s H).
  by destruct (PyStr.ascii_space c).
Qed.

Lemma is_ascii_lstrip (s : string) :
  PyStr.is_ascii s = true -> PyStr.is_ascii (PyStr.lstrip s) = true.
Proof.
  induction s as [|c s IH]; [done|]. intros H.
  pose proof H as H'. cbn [PyStr.is_ascii] in H'. apply andb_prop in H' as [Hc Hs].
  rewrite (lstrip_ascii_cons c s Hc).
  destruct (PyStr.ascii_space c); auto.
Qed.

Lemma is_ascii_rstrip (s : string) :
  PyStr.is_ascii s = true -> PyStr.is_ascii (PyStr.rstrip s) = true.
Proof.
  induction s as [|c s IH]; [done|]. intros H.
  cbn [PyStr.is_ascii] in H. apply andb_prop in H as [Hc Hs].
  cbn [PyStr.rstrip]. destruct (PyStr.blank _); [done|].
  cbn [PyStr.is_ascii]. by rewrite Hc, IH.
Qed.

Lemma is_ascii_strip (s : string) :
  PyStr.is_ascii s = true -> PyStr.is_ascii (PyStr.strip s) = true.
Proof. intros H. by apply is_ascii_rstrip, is_ascii_lstrip. Qed.

Lemma is_ascii_split (sep : ascii) (s : string) :
  PyStr.is_ascii s = true ->
  Forall (fun l => PyStr.is_ascii l = true) (PyStr.split sep s).
Proof.
  induction s as [|c s IH]; intros H; cbn [PyStr.split].
  - by repeat constructor.
  - cbn [PyStr.is_ascii] in H. apply andb_prop in H as [Hc Hs].
    specialize (IH Hs).
    destruct (Ascii.eqb c sep); [by constructor|].
    destruct IH as [|w ws Hw Hws]; repeat constructor; auto.
    + cbn [PyStr.is_ascii]. by rewrite Hc.
    + cbn [PyStr.is_ascii]. by rewrite Hc, Hw.
Qed.

Lemma is_ascii_after_colon (line x : string) :
  PyStr.is_ascii line = true -> after_colon line = Ok x ->
  PyStr.is_ascii x = true.
Proof.
  unfold after_colon. revert x.
  induction line as [|c s IH]; intros x H; cbn [PyStr.split1]; [done|].
  cbn [PyStr.is_ascii] in H. apply andb_prop in H as [Hc Hs].
  destruct (Ascii.eqb c ":"); [by intros [= <-]|].
  specialize (IH x Hs).
  destruct (PyStr.split1 ":" s) as [|w [|y ws]]; try done.
Qed.

Lemma lower_ascii (s : string) :
  PyStr.is_ascii s = true -> @PyStr.lower U1 s = @PyStr.lower U2 s.
Proof. unfold PyStr.lower. by intros ->. Qed.

Lemma of_str_ascii (s : string) :
  PyStr.is_ascii s = true -> @PyFloat.of_str U1 s = @PyFloat.of_str U2 s.
Proof. unfold PyFloat.of_str. by intros ->. Qed.

Lemma parse_line_ascii (result : Analysis) (line : string) :
  PyStr.is_ascii line = true ->
  @parse_line U1 result line = @parse_line U2 result line.
Proof.
  intros H. unfold parse_line, float_of_str.
  destruct (after_colon line) as [x| |] eqn:Hx; cbn [rbind];
    repeat case_match; try done.
  all: pose proof (is_ascii_strip x (is_ascii_after_colon line x H Hx)) as Hs.
  all: rewrite ?(lower_ascii _ Hs), ?(of_str_ascii _ Hs) in *; congruence.
Qed.

Lemma parse_lines_ascii (lines : list string) (result : Analysis) :
  Forall (fun l => PyStr.is_ascii l = true) lines ->
  @parse_lines U1 result lines = @parse_lines U2 result lines.
Proof.
  intros H. revert result. induction H as [|l ls Hl _ IH]; intros result; [done|].
  cbn [parse_lines]. rewrite (parse_line_ascii result l Hl).
  destruct (@parse_line U2 result l); cbn [rbind]; auto.
Qed.

(** The parse of an ASCII reply consults no Unicode data. *)
Lemma parse_response_ascii (response : string) :
  PyStr.is_ascii response = true ->
  @parse_response U1 response = @parse_response U2 response.
Proof.
  intros H. unfold parse_response.
  by apply parse_lines_ascii, is_ascii_split, is_ascii_strip.
Qed.

End AsciiText.

(** ** Running handler code *)

Section Exec.

Context {U : Unicode}.

Context {A : Type}.

Lemma exec_bind {B : Type} (w : world) (p : prog A) (f : A -> prog B) (st : state) :
  exec w (bind p f) st =
  match exec w p st with
  | (Ok a, st') => exec w (f a) st'
  | (Err e, st') => (Err e, st')
  | (ErrBase b, st') => (ErrBase b, st')
  end.
Proof.
  revert st.
  induction p as [a|e|b|chat text k IH|c d k IH|c q key dir n k IH|c q k IH
                 |k IH|k IH|msg e k IH]; intros st; simpl; try done;
    try (destruct (w_store_up w (length (st_trace st)))); apply IH.
Qed.

Lemma exec_try_except (w : world) (p : prog A) (h : exn -> prog A) (st : state) :
  exec w (try_except p h) st =
  match exec w p st with
  | (Ok a, st') => (Ok a, st')
  | (Err e, st') => exec w (h e) st'
  | (ErrBase b, st') => (ErrBase b, st')
  end.
Proof.
  revert st.
  induction p as [a|e|b|chat text k IH|c d k IH|c q key dir n k IH|c q k IH
                 |k IH|k IH|msg e k IH]; intros st; simpl; try done;
    try (destruct (w_store_up w (length (st_trace st)))); apply IH.
Qed.

(** One step, then the rest: [exec] follows [step]. *)
Lemma exec_step (w : world) (p p' : prog A) (st st' : state) :
  step w p st = Some (p', st') -> exec w p st = exec w p' st'.
Proof.
  destruct p; simpl; intros H; try discriminate;
    try (destruct (w_store_up w (length (st_trace st))));
    by simplify_eq.
Qed.

Lemma exec_steps (w : world) (c c' : prog A * state) :
  steps w c c' -> exec w c.1 c.2 = exec w c'.1 c'.2.
Proof.
  induction 1 as [|p st p' st' c Hs _ IH]; [done|].
  simpl in *. rewrite <- IH. by apply exec_step.
Qed.

End Exec.

(** ** The analysis as a handler step *)

Section Analyze.

Context {U : Unicode}.

Variable w : world.
Variable content : string.
Variable st : state.

Lemma exec_analyze_ok (response : string) (r : Analysis) :
  analysis_reply w content st = Ok response ->
  parse_response response = Ok r ->
  exec w (analyze_sentiment content) st = (Ok r, sent content st (Ok response)).
Proof.
  unfold analysis_reply, analyze_sentiment. intros Hg Hp.
  rewrite exec_try_except. unfold mbind, prog_bind. rewrite exec_bind.
  unfold send_message. cbn [exec]. rewrite Hg. cbn [lift exec].
  rewrite Hp. reflexivity.
Qed.

Lemma exec_analyze_err (e : exn) :
  analysis_reply w content st = Err e ->
  exec w (analyze_sentiment content) st =
  (Ok failure_default,
   emit (EvLog "Error in sentiment analysis: " e) (sent content st (Err e))).
Proof.
  unfold analysis_reply, analyze_sentiment. intros Hg.
  rewrite exec_try_except. unfold mbind, prog_bind. rewrite exec_bind.
  unfold send_message. cbn [exec]. rewrite Hg. cbn [lift exec].
  reflexivity.
Qed.

Lemma exec_analyze_base (b : base_exn) :
  analysis_reply w content st = ErrBase b ->
  exec w (analyze_sentiment content) st =
  (ErrBase b, sent content st (ErrBase b)).
Proof.
  unfold analysis_reply, analyze_sentiment. intros Hg.
  rewrite exec_try_except. unfold mbind, prog_bind. rewrite exec_bind.
  unfold send_message. cbn [exec]. rewrite Hg. cbn [lift exec].
  reflexivity.
Qed.

(** The analysis returns unless the request is cancelled while it waits
    for the gateway; either way it leaves the store as it was. *)
Lemma exec_analyze_cases :
  (exists r st', exec w (analyze_sentiment content) st = (Ok r, st') /\
                 st_db st' = st_db st /\
                 exists evs, st_trace st' = (st_trace st ++ evs)%list) \/
  (exists b st', exec w (analyze_sentiment content) st = (ErrBase b, st') /\
                 st_db st' = st_db st).
Proof.
  destruct (analysis_reply w content st) as [response|e|b] eqn:Hg.
  - destruct (parse_response_total response) as [r Hr]. left.
    exists r, (sent content st (Ok response)). split; [by apply exec_analyze_ok|].
    split; [done|]. simpl. eauto.
  - left. exists failure_default. eexists. split; [by apply exec_analyze_err|].
    split; [done|]. simpl. rewrite <- app_assoc. eauto.
  - right. exists b. eexists. split; [by apply exec_analyze_base|]. done.
Qed.

Lemma exec_analyze_db :
  st_db (exec w (analyze_sentiment content) st).2 = st_db st.
Proof.
  destruct exec_analyze_cases as [(r & st' & -> & Hd & _)|(b & st' & -> & Hd)];
    exact Hd.
Qed.

End Analyze.

(** ** What [analyze_sentiment] returns *)

Section AnalyzeClaims.

Context {U : Unicode}.

Lemma parse_line_own (lab : label) (result : Analysis) (rest : string) :
  parse_line result (prefix_of lab ++ rest) =
  Ok match lab with
     | LSentiment => set_sentiment result (PyStr.lower (PyStr.strip rest))
     | LMoodScore => set_mood_score result (float_or_five (PyStr.strip rest))
     | LInsight => set_insights result (PyStr.strip rest)
     | LStress =>
         if String.eqb (PyStr.lower (PyStr.strip rest)) "none" then result
         else set_stress_indicators result [PyStr.strip rest]
     end.
Proof.
  unfold parse_line.
  destruct lab.
  - rewrite (startswith_app (prefix_of LSentiment)), after_colon_prefix. done.
  - rewrite (startswith_other LMoodScore LSentiment) by done.
    rewrite (startswith_app (prefix_of LMoodScore)), after_colon_prefix.
    simpl. unfold float_of_str, float_or_five.
    by destruct (of_str (PyStr.strip rest)).
  - rewrite (startswith_other LInsight LSentiment) by done.
    rewrite (startswith_other LInsight LMoodScore) by done.
    rewrite (startswith_app (prefix_of LInsight)), after_colon_prefix. done.
  - rewrite (startswith_other LStress LSentiment) by done.
    rewrite (startswith_other LStress LMoodScore) by done.
    rewrite (startswith_other LStress LInsight) by done.
    rewrite (startswith_app (prefix_of LStress)), after_colon_prefix.
    simpl. by destruct (String.eqb _ _).
Qed.

Lemma not_prefixed_sets (lab : label) (line : string) :
  PyStr.startswith line (prefix_of lab) = false -> sets lab line = false.
Proof. unfold sets. by intros ->. Qed.

Lemma no_recognized_line_spec (response : string) :
  no_recognized_line response = true ->
  Forall (fun l => recognized l = false) (lines_of response).
Proof.
  unfold no_recognized_line. rewrite forallb_forall, List.Forall_forall.
  intros H l Hl. apply negb_true_iff. by apply H.
Qed.

(** The result is read off the reply whenever the gateway answers. *)
Lemma analyze_reply (w : world) (content : string) (st : state)
    (response : string) (r : Analysis) :
  analysis_reply w content st = Ok response ->
  parse_lines parse_default (lines_of response) = Ok r ->
  (exec w (analyze_sentiment content) st).1 = Ok r.
Proof. intros Hg Hp. by rewrite (exec_analyze_ok w content st response r). Qed.

End AnalyzeClaims.

Section ReplyLines.

Context {U : Unicode}.

Lemma middle_nonempty {A : Type} (before after : list A) (x : A) :
  (before ++ x :: after)%list <> [].
Proof. by destruct before. Qed.

(** The result of a reply that is [lines] joined by newlines. *)
Lemma analyze_lines (w : world) (content : string) (st : state)
    (response : string) (lines : list string) (r : Analysis) :
  analysis_reply w content st = Ok response ->
  reply_lines response lines = true -> lines <> [] ->
  parse_lines parse_default lines = Ok r ->
  (exec w (analyze_sentiment content) st).1 = Ok r.
Proof.
  intros Hg Hl Hne Hp. apply (analyze_reply w content st response); [done|].
  by rewrite (lines_of_reply response lines).
Qed.

End ReplyLines.

(** C7: parsing is line-independent.  A reply whose only recognized line
    is [Mood Score: 8.5] yields sentiment "neutral", mood score 8.5, the
    default insight and no stress indicators: every field without a line
    of its own keeps its default.  The reply is, inside the white space
    around it, that line among any lines that start with none of the
    four prefixes. *)
Theorem C7_only_mood_score_line {U : Unicode} (w : world) (content : string)
    (st : state) (response : string) (before after : list string) :
  analysis_reply w content st = Ok response ->
  reply_lines response (before ++ "Mood Score: 8.5" :: after) = true ->
  Forall (fun l => recognized l = false) before ->
  Forall (fun l => recognized l = false) after ->
  (exec w (analyze_sentiment content) st).1 =
  Ok {| sentiment := "neutral";
        mood_score := tenths 85;
        insights := "Take care of yourself and remember that it's okay to have ups and downs.";
        stress_indicators := [] |}.
Proof.
  intros Hg Hl Hb Ha.
  apply (analyze_lines w content st response _ _ Hg Hl (middle_nonempty _ _ _)).
  rewrite parse_lines_app, (parse_lines_unrecognized before) by done.
  cbn [rbind parse_lines].
  change "Mood Score: 8.5" with (prefix_of LMoodScore ++ " 8.5").
  rewrite parse_line_own. cbn [rbind].
  rewrite parse_lines_unrecognized by done.
  f_equal.
Qed.

Lemma C7_only_mood_score_line_witness :
  (exec (constant_world
           (Ok (PyStr.join_lines
                  [""; "Here is my reading of the entry."; "Mood Score: 8.5";
                   ""; "  Sentiment: unclear"; "Take care!"; "  "])))
        (analyze_sentiment "Slept well, feeling ready for the exam.")
        init_state).1 =
  Ok {| sentiment := "neutral";
        mood_score := tenths 85;
        insights := "Take care of yourself and remember that it's okay to have ups and downs.";
        stress_indicators := [] |}.
Proof.
  apply (C7_only_mood_score_line _ _ _
           (PyStr.join_lines
              [""; "Here is my reading of the entry."; "Mood Score: 8.5";
               ""; "  Sentiment: unclear"; "Take care!"; "  "])
           ["Here is my reading of the entry."]
           [""; "  Sentiment: unclear"; "Take care!"]).
  - reflexivity.
  - reflexivity.
  - repeat constructor.
  - repeat constructor.
Defined.

(** C6, as the code has it: when [Stress Indicators: t] is the only line
    of the reply with this prefix, the indicator list is empty if [t] is
    "none" in any case and the one-element list holding [t] otherwise.
    The text [t] is what follows the colon, without the white space
    around it. *)
Theorem C6_stress_indicators_line {U : Unicode} (w : world) (content : string)
    (st : state) (response : string) (before after : list string)
    (rest : string) :
  analysis_reply w content st = Ok response ->
  reply_lines response
    (before ++ ("Stress Indicators:" ++ rest)%string :: after) = true ->
  Forall (fun l => PyStr.startswith l "Stress Indicators:" = false) before ->
  Forall (fun l => PyStr.startswith l "Stress Indicators:" = false) after ->
  exists r,
    (exec w (analyze_sentiment content) st).1 = Ok r /\
    stress_indicators r =
      if String.eqb (PyStr.lower (PyStr.strip rest)) "none" then []
      else [PyStr.strip rest].
Proof.
  intros Hg Hl Hb Ha.
  destruct (parse_lines_total
              (before ++ ("Stress Indicators:" ++ rest)%string :: after)
              parse_default) as [r Hr].
  exists r.
  split; [exact (analyze_lines w content st response _ r Hg Hl
                   (middle_nonempty _ _ _) Hr)|].
  rewrite parse_lines_app in Hr.
  destruct (parse_lines parse_default before) as [rb| |] eqn:Hrb; [|done..].
  cbn [rbind parse_lines] in Hr.
  change ("Stress Indicators:" ++ rest) with (prefix_of LStress ++ rest) in Hr.
  rewrite parse_line_own in Hr. cbn [rbind] in Hr.
  assert (Hfb : get_field LStress rb = get_field LStress parse_default).
  { eapply parse_lines_frame; [|exact Hrb].
    eapply Forall_impl; [exact Hb|]. intros l. apply (not_prefixed_sets LStress). }
  assert (Hfa : forall r0, parse_lines r0 after = Ok r ->
                           stress_indicators r = stress_indicators r0).
  { intros r0 H0.
    assert (get_field LStress r = get_field LStress r0) as Hf.
    { eapply parse_lines_frame; [|exact H0].
      eapply Forall_impl; [exact Ha|]. intros l. apply (not_prefixed_sets LStress). }
    simpl in Hf. congruence. }
  simpl in Hfb. injection Hfb as Hfb.
  destruct (String.eqb (PyStr.lower (PyStr.strip rest)) "none").
  - rewrite (Hfa _ Hr). exact Hfb.
  - rewrite (Hfa _ Hr). reflexivity.
Qed.

Lemma C6_stress_indicators_line_witness :
  exists r,
    (exec (constant_world
             (Ok (PyStr.join_lines
                    ["Sentiment: calm"; "Stress Indicators:   NoNe "; "Mood Score: 7"])))
          (analyze_sentiment "A quiet day.") init_state).1 = Ok r /\
    stress_indicators r = [].
Proof.
  apply (C6_stress_indicators_line _ _ _
           (PyStr.join_lines
              ["Sentiment: calm"; "Stress Indicators:   NoNe "; "Mood Score: 7"])
           ["Sentiment: calm"] ["Mood Score: 7"] "   NoNe ").
  - reflexivity.
  - reflexivity.
  - repeat constructor.
  - repeat constructor.
Defined.

(** C6 fails as stated: a line [Stress Indicators: None] that follows a
    line naming an indicator does not give the empty list, and of two
    lines naming indicators only the text of the second is returned. *)
Lemma C6_not_the_only_stress_line :
  (exec (constant_world
           (Ok (PyStr.join_lines
                  ["Stress Indicators: deadlines"; "Mood Score: 4";
                   "Stress Indicators: None"])))
        (analyze_sentiment "Too much to do.") init_state).1 =
  Ok {| sentiment := "neutral";
        mood_score := of_int 4;
        insights := "Take care of yourself and remember that it's okay to have ups and downs.";
        stress_indicators := ["deadlines"] |} /\
  (exec (constant_world
           (Ok (PyStr.join_lines
                  ["Stress Indicators: deadlines"; "Stress Indicators: money"])))
        (analyze_sentiment "Too much to do.") init_state).1 =
  Ok {| sentiment := "neutral";
        mood_score := five;
        insights := "Take care of yourself and remember that it's okay to have ups and downs.";
        stress_indicators := ["money"] |}.
Proof. split; vm_compute; reflexivity. Qed.

(** C4, as the code has it: when the text of the last [Mood Score:] line
    parses as a number, that number is the mood score returned, unchanged;
    nothing confines it to the range from 1 to 10. *)
Theorem C4_mood_score_as_parsed {U : Unicode} (w : world) (content : string)
    (st : state) (response : string) (before after : list string)
    (rest : string) (v : float) :
  analysis_reply w content st = Ok response ->
  reply_lines response (before ++ ("Mood Score:" ++ rest)%string :: after) = true ->
  Forall (fun l => PyStr.startswith l "Mood Score:" = false) after ->
  of_str (PyStr.strip rest) = Some v ->
  exists r,
    (exec w (analyze_sentiment content) st).1 = Ok r /\ mood_score r = v.
Proof.
  intros Hg Hl Ha Hv.
  destruct (parse_lines_total
              (before ++ ("Mood Score:" ++ rest)%string :: after)
              parse_default) as [r Hr].
  exists r.
  split; [exact (analyze_lines w content st response _ r Hg Hl
                   (middle_nonempty _ _ _) Hr)|].
  rewrite parse_lines_app in Hr.
  destruct (parse_lines parse_default before) as [rb| |] eqn:Hrb; [|done..].
  cbn [rbind parse_lines] in Hr.
  change ("Mood Score:" ++ rest) with (prefix_of LMoodScore ++ rest) in Hr.
  rewrite parse_line_own in Hr. cbn [rbind] in Hr.
  assert (get_field LMoodScore r =
          get_field LMoodScore (set_mood_score rb (float_or_five (PyStr.strip rest))))
    as Hf.
  { eapply parse_lines_frame; [|exact Hr].
    eapply Forall_impl; [exact Ha|]. intros l. apply (not_prefixed_sets LMoodScore). }
  simpl in Hf. injection Hf as ->. unfold float_or_five. by rewrite Hv.
Qed.

Lemma C4_mood_score_as_parsed_witness :
  exists r,
    (exec (constant_world
             (Ok (PyStr.join_lines
                    ["Sentiment: positive"; "Mood Score: 3"; "Mood Score:  42 ";
                     "Insight: A very good day."])))
          (analyze_sentiment "Best day of the term.") init_state).1 = Ok r /\
    mood_score r = of_int 42.
Proof.
  apply (C4_mood_score_as_parsed _ _ _
           (PyStr.join_lines
              ["Sentiment: positive"; "Mood Score: 3"; "Mood Score:  42 ";
               "Insight: A very good day."])
           ["Sentiment: positive"; "Mood Score: 3"]
           ["Insight: A very good day."] "  42 ").
  - reflexivity.
  - reflexivity.
  - repeat constructor.
  - reflexivity.
Defined.

(** C4 fails as stated: the reply [Mood Score: 42] parses as the number
    42, and 42, which is above 10, is the mood score returned. *)
Lemma C4_mood_score_out_of_range :
  of_str "42" = Some (of_int 42) /\
  (exec (constant_world (Ok "Mood Score: 42"))
        (analyze_sentiment "Best day of the term.") init_state).1 =
  Ok (set_mood_score parse_default (of_int 42)) /\
  leb (of_int 42) (of_int 10) = false.
Proof. repeat split; vm_compute; reflexivity. Qed.

(** C10, as the code has it: a field is decided by the last line that
    assigns it.  Every [Sentiment:], [Mood Score:] and [Insight:] line
    assigns its field (an unparsable mood score assigns 5.0); a
    [Stress Indicators:] line assigns only when its text is not "none",
    so a later "none" line keeps the indicators of an earlier line. *)
Theorem C10_last_assigning_line_decides {U : Unicode} (w : world)
    (content : string) (st : state) (response : string) (lab : label)
    (before after : list string) (rest : string) :
  analysis_reply w content st = Ok response ->
  reply_lines response (before ++ (prefix_of lab ++ rest)%string :: after) = true ->
  sets lab (prefix_of lab ++ rest) = true ->
  Forall (fun l => sets lab l = false) after ->
  exists r,
    (exec w (analyze_sentiment content) st).1 = Ok r /\
    get_field lab r = assigned lab rest.
Proof.
  intros Hg Hl Hs Ha.
  destruct (parse_lines_total
              (before ++ (prefix_of lab ++ rest)%string :: after)
              parse_default) as [r Hr].
  exists r.
  split; [exact (analyze_lines w content st response _ r Hg Hl
                   (middle_nonempty _ _ _) Hr)|].
  rewrite (parse_lines_last_setter lab before after (prefix_of lab ++ rest)
             parse_default r _ Hs Ha Hr (parse_line_own lab parse_default rest)).
  rewrite sets_own in Hs.
  destruct lab; try reflexivity.
  apply negb_true_iff in Hs. by rewrite Hs.
Qed.

Lemma C10_last_assigning_line_decides_witness :
  exists r,
    (exec (constant_world
             (Ok (PyStr.join_lines
                    ["Mood Score: 3"; "Stress Indicators: exams";
                     "Mood Score: 7"; "Stress Indicators: none"])))
          (analyze_sentiment "Long week.") init_state).1 = Ok r /\
    get_field LStress r = VList ["exams"].
Proof.
  apply (C10_last_assigning_line_decides _ _ _
           (PyStr.join_lines
              ["Mood Score: 3"; "Stress Indicators: exams";
               "Mood Score: 7"; "Stress Indicators: none"])
           LStress ["Mood Score: 3"]
           ["Mood Score: 7"; "Stress Indicators: none"] " exams").
  - reflexivity.
  - reflexivity.
  - reflexivity.
  - repeat constructor.
Defined.

(** C10 fails as stated: with two [Stress Indicators:] lines, the last
    one reading "none", the indicators returned are those of the first
    line, while the last line on its own gives the empty list. *)
Lemma C10_earlier_stress_line_kept :
  (exec (constant_world
           (Ok (PyStr.join_lines
                  ["Stress Indicators: exams"; "Stress Indicators: none"])))
        (analyze_sentiment "Long week.") init_state).1 =
  Ok (set_stress_indicators parse_default ["exams"]) /\
  (exec (constant_world (Ok "Stress Indicators: none"))
        (analyze_sentiment "Long week.") init_state).1 =
  Ok (set_stress_indicators parse_default []).
Proof. split; vm_compute; reflexivity. Qed.

(** C3, as the code has it: [analyze_sentiment] lets no [Exception]
    reach its caller.  When the gateway raises one, the result is the
    failure default; when it answers, the result is what the parser
    reads, which never raises and is the parser default for a reply
    without a recognized line.  An exception that is no [Exception], as
    the cancellation of the request while it waits for the gateway, is
    not caught and passes to the caller.  The two defaults agree on
    sentiment, mood score and stress indicators and differ in the
    insight text. *)
Theorem C3_analyze_catches_exceptions {U : Unicode} (w : world)
    (content : string) (st : state) :
  match analysis_reply w content st with
  | Ok response =>
      exists r,
        parse_response response = Ok r /\
        (exec w (analyze_sentiment content) st).1 = Ok r /\
        if no_recognized_line response then r = parse_default else True
  | Err _ => (exec w (analyze_sentiment content) st).1 = Ok failure_default
  | ErrBase b => (exec w (analyze_sentiment content) st).1 = ErrBase b
  end /\
  sentiment failure_default = sentiment parse_default /\
  mood_score failure_default = mood_score parse_default /\
  stress_indicators failure_default = stress_indicators parse_default /\
  insights failure_default <> insights parse_default.
Proof.
  split; [|by repeat split].
  destruct (analysis_reply w content st) as [response|e|b] eqn:Hg.
  - destruct (parse_response_total response) as [r Hr].
    exists r. rewrite (exec_analyze_ok w content st response r Hg Hr).
    repeat split; [done|].
    destruct (no_recognized_line response) eqn:Hn; [|done].
    apply no_recognized_line_spec in Hn.
    unfold parse_response in Hr. fold (lines_of response) in Hr.
    rewrite parse_lines_unrecognized in Hr by done. congruence.
  - by rewrite (exec_analyze_err w content st e Hg).
  - by rewrite (exec_analyze_base w content st b Hg).
Qed.

(** C3 fails as stated: a failing gateway and an empty reply do not give
    the same tuple, the insight texts differ; and a request cancelled
    while the gateway is awaited leaves [analyze_sentiment] as
    [CancelledError]. *)
Lemma C3_two_defaults_differ :
  (exec (constant_world (Err GatewayError))
        (analyze_sentiment "Rough morning.") init_state).1 = Ok failure_default /\
  (exec (constant_world (Ok ""))
        (analyze_sentiment "Rough morning.") init_state).1 = Ok parse_default /\
  failure_default <> parse_default /\
  (exec (constant_world (ErrBase CancelledError))
        (analyze_sentiment "Rough morning.") init_state).1 = ErrBase CancelledError.
Proof. repeat split; try (vm_compute; reflexivity). discriminate. Qed.

(** ** Floats: order and the one-decimal rounding of an average *)

Section FloatFacts.

Context {U : Unicode}.

(** [x <= y] excludes [x > y]. *)
Lemma leb_not_gtb (x y : float) : leb x y = true -> gtb x y = false.
Proof.
  unfold leb, gtb, SFleb, SFltb, SFcompare.
  destruct x as [sx|sx| |sx mx ex], y as [sy|sy| |sy my ey];
    try destruct sx; try destruct sy; try done.
  - rewrite (Z.compare_antisym ex ey).
    change (Pos.compare_cont Eq my mx) with (Pos.compare_cont (CompOpp Eq) my mx).
    rewrite <- (Pos.compare_cont_antisym mx my Eq).
    destruct (ex ?= ey); simpl; try done.
    by destruct (Pos.compare_cont Eq mx my).
  - rewrite (Z.compare_antisym ex ey).
    change (Pos.compare_cont Eq my mx) with (Pos.compare_cont (CompOpp Eq) my mx).
    rewrite <- (Pos.compare_cont_antisym mx my Eq).
    destruct (ex ?= ey); simpl; try done.
    by destruct (Pos.compare_cont Eq mx my).
Qed.

Lemma rounds_as_exact_all :
  forallb (fun n => forallb (fun s => rounds_as_exact s n) (seqZ n (4 * n + 1)))
          (seqZ 1 10) = true.
Proof. vm_compute. reflexivity. Qed.

Lemma round1_average (s n : Z) :
  1 <= n <= 10 -> n <= s <= 5 * n ->
  exists a, truediv s n = Ok a /\
            round1 a = tenths (nearest_tenth_even s n).
Proof.
  intros Hn Hs.
  pose proof rounds_as_exact_all as H.
  rewrite forallb_forall in H.
  specialize (H n). rewrite <- list_elem_of_In, elem_of_seqZ in H.
  specialize (H ltac:(lia)).
  rewrite forallb_forall in H.
  specialize (H s). rewrite <- list_elem_of_In, elem_of_seqZ in H.
  specialize (H ltac:(lia)).
  unfold rounds_as_exact in H.
  destruct (truediv s n) as [a| |]; [|done..].
  exists a. split; [done|]. by apply bool_decide_eq_true in H.
Qed.

End FloatFacts.

(** ** The statistics handler *)

Section Stats.

Context {U : Unicode}.

Lemma sum_field_bounds (key : string) (docs : list document) :
  Forall (fun c => exists z, int_field key c = Ok z /\ 1 <= z <= 5) docs ->
  exists s, sum_field key docs = Ok s /\
            Z.of_nat (length docs) <= s <= 5 * Z.of_nat (length docs).
Proof.
  induction 1 as [|c docs (z & Hz & Hr) _ (s & Hs & Hb)].
  - exists 0. simpl. split; [done|lia].
  - exists (z + s). cbn [sum_field]. rewrite Hz, Hs. simpl rbind.
    split; [done|]. rewrite length_cons. lia.
Qed.

Lemma average_rounds (key : string) (docs : list document) :
  docs <> [] -> (length docs <= 10)%nat ->
  Forall (fun c => exists z, int_field key c = Ok z /\ 1 <= z <= 5) docs ->
  exists s a,
    sum_field key docs = Ok s /\ average key docs = Ok a /\
    round1 a = tenths (nearest_tenth_even s (Z.of_nat (length docs))).
Proof.
  intros Hne Hlen Hall.
  destruct (sum_field_bounds key docs Hall) as (s & Hs & Hb).
  assert (1 <= Z.of_nat (length docs) <= 10) as Hn.
  { destruct docs; [done|]. rewrite length_cons in *. lia. }
  destruct (round1_average s _ Hn Hb) as (a & Ha & Hr).
  exists s, a. repeat split; [done| |done].
  unfold average. destruct docs; [done|]. by rewrite Hs.
Qed.

(** The handler with the store up: count, find, average, decide. *)
Lemma exec_get_user_stats (w : world) (user_id : string) (st : state)
    (am ast : float) :
  let recent := run_find (st_db st) mood_checkins [("user_id", user_id)]
                  "created_at" (-1) 10 in
  w_store_up w (length (st_trace st)) = true ->
  w_store_up w (S (length (st_trace st))) = true ->
  average "mood_level" recent = Ok am ->
  average "stress_level" recent = Ok ast ->
  (exec w (get_user_stats user_id) st).1 =
  Ok (user_stats (run_count (st_db st) journal_entries [("user_id", user_id)])
        am ast).
Proof.
  intros recent H0 H1 Hm Hs. unfold get_user_stats.
  rewrite exec_try_except. unfold mbind, prog_bind, count_documents.
  cbn [bind exec]. rewrite H0. cbn [lift bind find exec].
  cbn [emit st_trace st_db]. rewrite length_app, Nat.add_1_r, H1.
  cbn [lift bind]. fold recent. rewrite Hm. cbn [lift bind].
  rewrite Hs. reflexivity.
Qed.

End Stats.

(** C8: with no mood check-in of the owner, the averages are 3.0 and 3.0,
    the recommendations are the single affirming string, and there is no
    pattern. *)
Theorem C8_no_checkins (w : world) (user_id : string) (st : state) :
  w_store_up w (length (st_trace st)) = true ->
  w_store_up w (S (length (st_trace st))) = true ->
  List.filter (matches [("user_id", user_id)]) (db_mood_checkins (st_db st)) = [] ->
  exists stats,
    (exec w (get_user_stats user_id) st).1 = Ok stats /\
    avg_mood stats = three /\
    avg_stress stats = three /\
    recommendations stats = ["Keep up the great work on your wellness journey!"] /\
    recent_patterns stats = [].
Proof.
  intros H0 H1 Hnone.
  eexists. split.
  - apply (exec_get_user_stats w user_id st three three H0 H1);
      unfold run_find; cbn [coll_get]; by rewrite Hnone.
  - by repeat split.
Qed.

Lemma C8_no_checkins_witness :
  exists stats,
    (exec (constant_world (Ok ""))
          (get_user_stats "alice")
          (state_with_checkins [checkin_doc "bob" 1 5 "2025-03-01T09:00:00+00:00"])).1
    = Ok stats /\
    avg_mood stats = three /\
    avg_stress stats = three /\
    recommendations stats = ["Keep up the great work on your wellness journey!"] /\
    recent_patterns stats = [].
Proof.
  apply (C8_no_checkins (constant_world (Ok "")) "alice"
           (state_with_checkins [checkin_doc "bob" 1 5 "2025-03-01T09:00:00+00:00"])).
  - reflexivity.
  - reflexivity.
  - vm_compute. reflexivity.
Defined.

(** C1, as the code has it: with average stress 4.0 and average mood 2.0
    the recommendations are the two stress strings followed by the two
    mood strings, and the patterns are the stress pattern followed by the
    lower-mood pattern; with an average stress of at most 3.5 and average
    mood 2.0 the patterns are the lower-mood pattern alone. *)
Theorem C1_stress_and_mood_rules (total : nat) (avg_stress : float) :
  leb avg_stress three_half = true ->
  recommendations (user_stats total two four) =
    ["Consider taking regular breaks during study sessions";
     "Try deep breathing exercises when feeling overwhelmed";
     "Engage in activities that bring you joy";
     "Consider reaching out to friends or counselors"] /\
  recent_patterns (user_stats total two four) =
    ["Elevated stress levels detected";
     "Lower mood levels - consider self-care"] /\
  recent_patterns (user_stats total two avg_stress) =
    ["Lower mood levels - consider self-care"].
Proof.
  intros Hle. repeat split.
  cbn [user_stats recent_patterns]. unfold make_recent_patterns.
  rewrite (leb_not_gtb _ _ Hle). reflexivity.
Qed.

Lemma C1_stress_and_mood_rules_witness :
  recommendations (user_stats 7 two four) =
    ["Consider taking regular breaks during study sessions";
     "Try deep breathing exercises when feeling overwhelmed";
     "Engage in activities that bring you joy";
     "Consider reaching out to friends or counselors"] /\
  recent_patterns (user_stats 7 two four) =
    ["Elevated stress levels detected";
     "Lower mood levels - consider self-care"] /\
  recent_patterns (user_stats 7 two three) =
    ["Lower mood levels - consider self-care"].
Proof.
  apply (C1_stress_and_mood_rules 7 three). reflexivity.
Defined.

(** C1 fails as stated: one check-in with mood 2 and stress 4 gives the
    averages 2.0 and 4.0, and two patterns come back, the lower-mood
    pattern after the stress pattern. *)
Lemma C1_mood_pattern_not_suppressed :
  exists stats,
    (exec (constant_world (Ok ""))
          (get_user_stats "alice")
          (state_with_checkins [checkin_doc "alice" 2 4 "2025-03-01T09:00:00+00:00"])).1
    = Ok stats /\
    avg_mood stats = two /\
    avg_stress stats = four /\
    recent_patterns stats =
      ["Elevated stress levels detected";
       "Lower mood levels - consider self-care"] /\
    recent_patterns stats <> ["Elevated stress levels detected"].
Proof.
  eexists. split; [vm_compute; reflexivity|].
  repeat split; try (vm_compute; reflexivity). discriminate.
Qed.

(** C5, as the code has it: both averages are rounded to one decimal with
    ties going to the even tenth.  For one to ten check-ins with samples
    from 1 to 5 the reported average is the float of the tenth nearest to
    the exact mean, an exact half going to the even neighbour: the mood
    samples 3, 4, 4 give 3.7 and a mean of 3.25 gives 3.2. *)
Theorem C5_rounds_half_to_even (total : nat) (docs : list document) :
  docs <> [] ->
  (length docs <= 10)%nat ->
  Forall (fun c => exists z, int_field "mood_level" c = Ok z /\ 1 <= z <= 5) docs ->
  Forall (fun c => exists z, int_field "stress_level" c = Ok z /\ 1 <= z <= 5) docs ->
  (exists sm ss am ast,
     sum_field "mood_level" docs = Ok sm /\
     sum_field "stress_level" docs = Ok ss /\
     average "mood_level" docs = Ok am /\
     average "stress_level" docs = Ok ast /\
     avg_mood (user_stats total am ast) =
       tenths (nearest_tenth_even sm (Z.of_nat (length docs))) /\
     avg_stress (user_stats total am ast) =
       tenths (nearest_tenth_even ss (Z.of_nat (length docs)))) /\
  nearest_tenth_even (3 + 4 + 4) 3 = 37 /\
  nearest_tenth_even (3 + 3 + 3 + 4) 4 = 32 /\
  nearest_tenth_even (3 + 4 + 4 + 4) 4 = 38.
Proof.
  intros Hne Hlen Hm Hs. split; [|by repeat split].
  destruct (average_rounds "mood_level" docs Hne Hlen Hm) as (sm & am & ? & ? & ?).
  destruct (average_rounds "stress_level" docs Hne Hlen Hs) as (ss & ast & ? & ? & ?).
  exists sm, ss, am, ast. by repeat split.
Qed.

Lemma C5_rounds_half_to_even_witness :
  let docs := [checkin_doc "alice" 3 2 "2025-03-01T09:00:00+00:00";
               checkin_doc "alice" 4 2 "2025-03-02T09:00:00+00:00";
               checkin_doc "alice" 4 3 "2025-03-03T09:00:00+00:00"] in
  exists am ast,
    average "mood_level" docs = Ok am /\
    average "stress_level" docs = Ok ast /\
    avg_mood (user_stats 0 am ast) = tenths 37 /\
    avg_stress (user_stats 0 am ast) = tenths 23.
Proof.
  intros docs.
  destruct (C5_rounds_half_to_even 0 docs)
    as [(sm & ss & am & ast & Hsm & Hss & Ham & Hast & Hrm & Hrs) _].
  - discriminate.
  - simpl. lia.
  - repeat constructor; eexists; (split; [vm_compute; reflexivity|lia]).
  - repeat constructor; eexists; (split; [vm_compute; reflexivity|lia]).
  - vm_compute in Hsm. injection Hsm as <-.
    vm_compute in Hss. injection Hss as <-.
    exists am, ast. repeat split; [exact Ham|exact Hast|exact Hrm|exact Hrs].
Defined.

(** C5 fails as stated: the mood samples 3, 3, 3, 4 have the mean 3.25,
    an exact half at the second decimal, and the reported average is 3.2,
    the even neighbour, not 3.3. *)
Lemma C5_half_not_away_from_zero :
  average "mood_level"
    [checkin_doc "alice" 3 2 "2025-03-01T09:00:00+00:00";
     checkin_doc "alice" 3 2 "2025-03-02T09:00:00+00:00";
     checkin_doc "alice" 3 2 "2025-03-03T09:00:00+00:00";
     checkin_doc "alice" 4 2 "2025-03-04T09:00:00+00:00"]
  = Ok (of_decimal false 325 (-2)) /\
  exists stats,
    (exec (constant_world (Ok ""))
          (get_user_stats "alice")
          (state_with_checkins
             [checkin_doc "alice" 3 2 "2025-03-01T09:00:00+00:00";
              checkin_doc "alice" 3 2 "2025-03-02T09:00:00+00:00";
              checkin_doc "alice" 3 2 "2025-03-03T09:00:00+00:00";
              checkin_doc "alice" 4 2 "2025-03-04T09:00:00+00:00"])).1
    = Ok stats /\
    avg_mood stats = tenths 32 /\
    avg_mood stats <> tenths 33.
Proof.
  split; [vm_compute; reflexivity|].
  eexists. split; [vm_compute; reflexivity|].
  split; [vm_compute; reflexivity|]. vm_compute. discriminate.
Qed.

(** ** What the handlers write *)

Section Writes.

Context {U : Unicode}.

Context {A : Type}.
Variable P : collection -> document -> Prop.

Lemma wo_lift (r : Result A) : writes_only P (lift r).
Proof. destruct r; constructor. Qed.

Lemma wo_bind {B : Type} (p : prog A) (f : A -> prog B) :
  writes_only P p -> (forall a, writes_only P (f a)) ->
  writes_only P (bind p f).
Proof.
  intros Hp Hf. induction Hp; simpl; try (constructor; eauto); apply Hf.
Qed.

Lemma wo_try_except (p : prog A) (h : exn -> prog A) :
  writes_only P p -> (forall e, writes_only P (h e)) ->
  writes_only P (try_except p h).
Proof.
  intros Hp Hh. induction Hp; simpl; try (constructor; eauto); apply Hh.
Qed.

(** A property of the store that every permitted write keeps holds
    after the handler has run. *)
Lemma exec_writes_only (I : database -> Prop) (w : world) (p : prog A) :
  (forall c d db, P c d -> I db -> I (coll_insert c d db)) ->
  writes_only P p ->
  forall st, I (st_db st) -> I (st_db (exec w p st).2).
Proof.
  intros Hins Hp.
  induction Hp as [a|e|b|chat text k _ IH|c d k Hcd _ IH|c q key dir n k _ IH
                  |c q k _ IH|k _ IH|k _ IH|msg e k _ IH]; intros st Hst;
    simpl; try done;
    try (destruct (w_store_up w (length (st_trace st))));
    apply IH; simpl; auto.
Qed.

End Writes.

Section Handlers.

Context {U : Unicode}.

Lemma JournalEntry_init_entry (entry : JournalEntryCreate) (a : Analysis) :
  JournalEntry_init (with_analysis (JournalEntryCreate_dict entry) a) =
  Uuid4 (fun id => UtcNow (fun now => Ret
    {| je_id := id; je_user_id := jc_user_id entry;
       je_content := jc_content entry;
       je_mood_score := Some (mood_score a);
       je_sentiment := Some (sentiment a);
       je_tags := jc_tags entry;
       je_ai_insights := Some (insights a);
       je_privacy_level := jc_privacy_level entry;
       je_created_at := now |})).
Proof. vm_compute. reflexivity. Qed.

Lemma MoodCheckIn_init_checkin (c : MoodCheckInCreate) :
  MoodCheckIn_init (MoodCheckInCreate_dict c) =
  Uuid4 (fun id => UtcNow (fun now => Ret
    {| mc_id := id; mc_user_id := mcc_user_id c;
       mc_mood_level := mcc_mood_level c;
       mc_stress_level := mcc_stress_level c;
       mc_energy_level := mcc_energy_level c;
       mc_notes := mcc_notes c;
       mc_created_at := now |})).
Proof. destruct c as [u m s e [n|]]; vm_compute; reflexivity. Qed.

(** The stored journal document has its sentiment and its mood score. *)
Lemma journal_document_ok (entry : JournalEntryCreate) (a : Analysis)
    (id : string) (now : datetime) :
  journal_doc_ok (journal_document entry a id now) = true.
Proof. vm_compute. reflexivity. Qed.

Lemma chat_document_ok (m : ChatMessage) (s : string) :
  cm_sentiment m = Some s ->
  chat_doc_ok (prepare_for_mongo (ChatMessage_dict m)) = true.
Proof. destruct m; simpl. intros ->. vm_compute. reflexivity. Qed.

Lemma wo_analyze (P : collection -> document -> Prop) (content : string) :
  writes_only P (analyze_sentiment content).
Proof.
  unfold analyze_sentiment, send_message, log_error, mbind, prog_bind.
  apply wo_try_except.
  - apply wo_bind; [constructor; apply wo_lift|]. intros. apply wo_lift.
  - intros e. repeat constructor.
Qed.

Lemma wo_create_journal_entry (entry : JournalEntryCreate) :
  writes_only doc_ok (create_journal_entry entry).
Proof.
  unfold create_journal_entry, insert_one, log_error, mbind, prog_bind.
  apply wo_try_except; [|intros; repeat constructor].
  apply wo_bind; [apply wo_analyze|]. intros a.
  rewrite JournalEntry_init_entry.
  cbn [bind]. constructor; intros id. constructor; intros now.
  constructor; [apply journal_document_ok|].
  intros r. apply wo_bind; [apply wo_lift|constructor].
Qed.

Lemma wo_chat_with_companion (chat_req : ChatRequest) :
  writes_only doc_ok (chat_with_companion chat_req).
Proof.
  unfold chat_with_companion, ChatMessage_init, send_message, insert_one,
    log_error, uuid4, utcnow, mbind, prog_bind.
  apply wo_try_except; [|intros; repeat constructor].
  cbn [bind]. constructor; intros r.
  apply wo_bind; [apply wo_lift|]. intros ai_response.
  apply wo_bind; [apply wo_analyze|]. intros a.
  cbn [bind]. constructor; intros id. constructor; intros now.
  constructor; [by eapply chat_document_ok|].
  intros r'. apply wo_bind; [apply wo_lift|constructor].
Qed.

Lemma wo_create_mood_checkin (checkin : MoodCheckInCreate) :
  writes_only doc_ok (create_mood_checkin checkin).
Proof.
  unfold create_mood_checkin, insert_one, log_error, mbind, prog_bind.
  rewrite MoodCheckIn_init_checkin.
  apply wo_try_except; [|intros; repeat constructor].
  cbn [bind]. constructor; intros id. constructor; intros now.
  constructor; [exact I|].
  intros r. apply wo_bind; [apply wo_lift|constructor].
Qed.

Lemma wo_get_user_stats (user_id : string) :
  writes_only doc_ok (get_user_stats user_id).
Proof.
  unfold get_user_stats, count_documents, find, log_error, mbind, prog_bind.
  apply wo_try_except; [|intros; repeat constructor].
  cbn [bind]. constructor; intros r.
  apply wo_bind; [apply wo_lift|]. intros total.
  cbn [bind]. constructor; intros r'.
  apply wo_bind; [apply wo_lift|]. intros recent.
  apply wo_bind; [apply wo_lift|]. intros am.
  apply wo_bind; [apply wo_lift|]. intros ast. constructor.
Qed.

Lemma store_ok_insert (c : collection) (d : document) (db : database) :
  doc_ok c d -> store_ok db -> store_ok (coll_insert c d db).
Proof.
  intros Hd [Hj Hc]. destruct c; split; simpl; try done;
    apply Forall_app; split; auto.
Qed.

Lemma serve_store_ok (w : world) (req : request) (st : state) :
  store_ok (st_db st) -> store_ok (st_db (serve w req st)).
Proof.
  intros Hst. destruct req; unfold serve;
    apply (exec_writes_only doc_ok store_ok); auto using store_ok_insert,
      wo_create_journal_entry, wo_chat_with_companion,
      wo_create_mood_checkin, wo_get_user_stats.
Qed.

End Handlers.

(** C2, as the code has it: whatever requests are served, every stored
    journal entry carries a sentiment label and a mood score, and every
    stored chat turn carries a sentiment label.  A chat turn has no
    mood-score field. *)
Theorem C2_persisted_fields {U : Unicode} (w : world) (reqs : list request) :
  store_ok (st_db (serve_all w reqs init_state)).
Proof.
  unfold serve_all.
  assert (store_ok (st_db init_state)) as H by (split; constructor).
  revert H. generalize init_state.
  induction reqs as [|req reqs IH]; intros st Hst; simpl; [done|].
  apply IH. by apply serve_store_ok.
Qed.

(** C2 fails as stated: the chat turn stored for a request has its
    sentiment label but no mood score at all. *)
Lemma C2_chat_turn_without_mood_score :
  let d := prepare_for_mongo (ChatMessage_dict
             {| cm_id := "00000000-0000-4000-8000-000000000000";
                cm_user_id := "alice"; cm_session_id := "s-1";
                cm_message := "I am worried about tomorrow.";
                cm_response := "Sentiment: negative";
                cm_sentiment := Some "negative";
                cm_created_at := Datetime "2025-01-01T00:00:00+00:00" |}) in
  db_chat_messages
    (st_db (serve (constant_world (Ok "Sentiment: negative"))
              (PostChat sample_chat) init_state)) = [d] /\
  d !! "sentiment" = Some (VStr "negative") /\
  d !! "mood_score" = None /\
  non_null d "mood_score" = false.
Proof. repeat split; reflexivity. Qed.

(** ** The order of analysis and write *)

Lemma steps_inv {A : Type} (w : world) (p : prog A) (st : state)
    (c : prog A * state) :
  steps w (p, st) c ->
  c = (p, st) \/
  exists p1 st1, step w p st = Some (p1, st1) /\ steps w (p1, st1) c.
Proof. inversion 1; subst; eauto. Qed.

(** Either the run stops at the configuration in [H], or one effect is
    performed; a store effect splits on the store being reachable. *)
Ltac step_inv H :=
  let Hstep := fresh "Hstep" in
  apply steps_inv in H as [H | (?p & ?s & Hstep & H)];
  [ injection H as -> ->
  | cbn [step] in Hstep;
    try match type of Hstep with
        | context [w_store_up ?w0 ?t] => destruct (w_store_up w0 t)
        end;
    simplify_eq ].

(** After the analysis: uuid, clock, then the one write. *)
Lemma steps_store_entry (w : world) (entry : JournalEntryCreate) (a : Analysis)
    (sta : state) (q : prog JournalEntry) (st' : state) :
  steps w (store_entry entry a, sta) (q, st') ->
  exists evs,
    st_trace st' = (st_trace sta ++ evs)%list /\
    (st_db st' = st_db sta \/
     exists id now,
       st_db st' =
       coll_insert journal_entries (journal_document entry a id now) (st_db sta)).
Proof.
  intros H. unfold store_entry, insert_one, log_error in H.
  unfold mbind, prog_bind in H.
  rewrite JournalEntry_init_entry in H. cbn [bind try_except lift] in H.
  step_inv H. { exists []. rewrite app_nil_r. eauto. }
  step_inv H. { eexists. eauto. }
  step_inv H. { eexists. split; [cbn; by rewrite <- app_assoc|]. eauto. }
  - cbn [bind try_except lift] in H.
    step_inv H. eexists. split; [cbn; by rewrite <- !app_assoc|].
    right. eauto.
  - cbn [bind try_except lift] in H.
    step_inv H. { eexists. split; [cbn; by rewrite <- !app_assoc|]. eauto. }
    step_inv H. eexists. split; [cbn; by rewrite <- !app_assoc|]. eauto.
Qed.


(** C9: no partial writes.  At every point of a run of
    [create_journal_entry], either nothing has been written to the store,
    or the analysis has already returned (with the parsed result or with
    the failure default), its events lying before this point in the trace,
    and what has been written is the one entry carrying that result. *)
Theorem C9_write_after_analysis {U : Unicode} (w : world)
    (entry : JournalEntryCreate) (st : state) (q : prog JournalEntry)
    (st' : state) :
  steps w (create_journal_entry entry, st) (q, st') ->
  st_db st' = st_db st \/
  exists a sta id now evs,
    exec w (analyze_sentiment (jc_content entry)) st = (Ok a, sta) /\
    st_trace st' = (st_trace sta ++ evs)%list /\
    st_db st' =
    coll_insert journal_entries (journal_document entry a id now) (st_db st).
Proof.
  intros H.
  unfold create_journal_entry, analyze_sentiment, send_message, log_error in H.
  unfold mbind, prog_bind in H. cbn [bind try_except] in H.
  step_inv H; [by left|].
  fold (analysis_reply w (jc_content entry) st) in H.
  fold (sent (jc_content entry) st (analysis_reply w (jc_content entry) st)) in H.
  destruct (analysis_reply w (jc_content entry) st) as [response|e|b] eqn:Hg.
  - destruct (parse_response_total response) as [a Ha].
    pose proof (exec_analyze_ok w _ st response a Hg Ha) as Hexec.
    cbn [lift bind try_except] in H. rewrite Ha in H.
    cbn [lift bind try_except] in H.
    apply (steps_store_entry w entry a) in H as (evs & Ht & [Hd | (id & now & Hd)]).
    + by left.
    + right. eexists a, _, id, now, evs.
      split; [exact Hexec|]. split; [exact Ht|exact Hd].
  - pose proof (exec_analyze_err w _ st e Hg) as Hexec.
    cbn [lift bind try_except] in H.
    step_inv H; [by left|].
    apply (steps_store_entry w entry failure_default) in H
      as (evs & Ht & [Hd | (id & now & Hd)]).
    + by left.
    + right. eexists failure_default, _, id, now, evs.
      split; [exact Hexec|]. split; [exact Ht|exact Hd].
  - cbn [lift bind try_except] in H.
    step_inv H. by left.
Qed.

Lemma C9_write_after_analysis_witness :
  exists q st',
    steps (constant_world (Ok "Sentiment: positive"))
      (create_journal_entry sample_entry, init_state) (q, st') /\
    length (db_journal_entries (st_db st')) = 1%nat /\
    (st_db st' = st_db init_state \/
     exists a sta id now evs,
       exec (constant_world (Ok "Sentiment: positive"))
         (analyze_sentiment (jc_content sample_entry)) init_state = (Ok a, sta) /\
       st_trace st' = (st_trace sta ++ evs)%list /\
       st_db st' =
       coll_insert journal_entries (journal_document sample_entry a id now)
         (st_db init_state)).
Proof.
  eexists _, _. split; [|split].
  - do 4 (eapply steps_step; [reflexivity|]). apply steps_refl.
  - reflexivity.
  - eapply (C9_write_after_analysis (constant_world (Ok "Sentiment: positive"))
             sample_entry init_state).
    do 4 (eapply steps_step; [reflexivity|]). apply steps_refl.
Defined.

(** * Further properties of the handlers *)

(** ** Documents on their way to the store and back *)

Lemma prepare_value_idem (v : value) :
  prepare_value (prepare_value v) = prepare_value v.
Proof. by destruct v. Qed.

(** X1: [prepare_for_mongo] keeps the keys of the document, turns every
    [datetime] value into its ISO string, leaves every other value as it
    is, and has nothing left to do when applied again. *)
Theorem X1_prepare_for_mongo (data : document) :
  dom (prepare_for_mongo data) = dom data /\
  (forall key d, data !! key = Some (VDatetime d) ->
                 prepare_for_mongo data !! key = Some (VStr (isoformat d))) /\
  (forall key v, data !! key = Some v -> (forall d, v <> VDatetime d) ->
                 prepare_for_mongo data !! key = Some v) /\
  (forall key d, prepare_for_mongo data !! key <> Some (VDatetime d)) /\
  prepare_for_mongo (prepare_for_mongo data) = prepare_for_mongo data.
Proof.
  unfold prepare_for_mongo. repeat split.
  - apply dom_fmap_L.
  - intros key d H. by rewrite lookup_fmap, H.
  - intros key v H Hv. rewrite lookup_fmap, H. simpl. f_equal.
    destruct v; try done. by destruct (Hv d).
  - intros key d. rewrite lookup_fmap.
    destruct (data !! key) as [v|]; [|done]. by destruct v.
  - rewrite <- map_fmap_compose. apply map_fmap_ext.
    intros key v _. apply prepare_value_idem.
Qed.

(** ** What each write route returns and stores *)

Lemma length_emit (ev : event) (st : state) :
  length (st_trace (emit ev st)) = S (length (st_trace st)).
Proof. simpl. rewrite length_app. simpl. lia. Qed.

(** The handler body guarded by [except Exception]: log, then raise the
    route's own error. *)
Lemma exec_guard {A : Type} (w : world) (p : prog A) (msg : string)
    (E : exn) (st : state) :
  exec w (try_except p (fun e => _ ← log_error msg e; Raise E)) st =
  match exec w p st with
  | (Ok a, st') => (Ok a, st')
  | (Err e, st') => (Err E, emit (EvLog msg e) st')
  | (ErrBase b, st') => (ErrBase b, st')
  end.
Proof.
  rewrite exec_try_except. by destruct (exec w p st) as [[a|e|b] st'].
Qed.

(** X5: [create_journal_entry] once the analysis has returned [a].  If
    the store takes the write, the entry returned has the owner, text,
    tags and privacy of the request and the sentiment, mood score and
    insight of [a], and the store gains exactly its document; if the
    store fails, the route raises its HTTP 500 error and the store is
    as before. *)
Theorem X5_create_journal_entry_outcome {U : Unicode} (w : world)
    (entry : JournalEntryCreate) (st sta : state) (a : Analysis) :
  exec w (analyze_sentiment (jc_content entry)) st = (Ok a, sta) ->
  let t := length (st_trace sta) in
  let id := w_uuid w t in
  let now := w_now w (S t) in
  let out := exec w (create_journal_entry entry) st in
  if w_store_up w (S (S t))
  then out.1 = Ok (journal_entry_of entry a id now) /\
       st_db out.2 =
       coll_insert journal_entries (journal_document entry a id now) (st_db st)
  else out.1 = Err (HTTPException 500 "Failed to create journal entry") /\
       st_db out.2 = st_db st.
Proof.
  intros Hexec t id now out.
  assert (st_db sta = st_db st) as Hdb.
  { pose proof (exec_analyze_db w (jc_content entry) st) as Hd.
    by rewrite Hexec in Hd. }
  subst out. unfold create_journal_entry.
  rewrite exec_guard. unfold mbind, prog_bind.
  rewrite exec_bind, Hexec. rewrite JournalEntry_init_entry.
  unfold insert_one. cbn [bind exec].
  rewrite !length_emit. fold t. fold id. fold now.
  destruct (w_store_up w (S (S t))); cbn [lift bind exec fst snd st_db emit];
    rewrite <- Hdb; done.
Qed.

Lemma X5_create_journal_entry_outcome_witness :
  let w := constant_world (Ok "Sentiment: Positive") in
  let a := set_sentiment parse_default "positive" in
  (exec w (create_journal_entry sample_entry) init_state).1 =
    Ok (journal_entry_of sample_entry a (w_uuid w 1) (w_now w 2)) /\
  st_db (exec w (create_journal_entry sample_entry) init_state).2 =
    coll_insert journal_entries
      (journal_document sample_entry a (w_uuid w 1) (w_now w 2)) empty_db.
Proof.
  intros w a.
  exact (X5_create_journal_entry_outcome w sample_entry init_state
           (sent (jc_content sample_entry) init_state (Ok "Sentiment: Positive"))
           a eq_refl).
Defined.

(** X6: when the companion gateway fails, [chat_with_companion] raises
    its HTTP 500 error, stores nothing, and never asks for the sentiment
    analysis: the gateway call and the log entry are the only effects. *)
Theorem X6_chat_companion_failure {U : Unicode} (w : world)
    (chat_req : ChatRequest) (st : state) (e : exn) :
  let chat := get_companion_chat (cr_session_id chat_req) in
  w_gateway w (length (st_trace st)) chat (cr_message chat_req) = Err e ->
  exec w (chat_with_companion chat_req) st =
  (Err (HTTPException 500 "Failed to process chat message"),
   {| st_db := st_db st;
      st_trace := (st_trace st ++
                   [EvSend chat (cr_message chat_req) (Err e);
                    EvLog "Error in chat: " e])%list |}).
Proof.
  intros chat Hg. unfold chat_with_companion.
  rewrite exec_guard. unfold mbind, prog_bind, send_message.
  cbn [bind exec]. fold chat. rewrite Hg. cbn [lift bind exec].
  unfold emit. cbn [st_db st_trace]. by rewrite <- app_assoc.
Qed.

Lemma X6_chat_companion_failure_witness :
  exec (constant_world (Err GatewayError)) (chat_with_companion sample_chat)
    init_state =
  (Err (HTTPException 500 "Failed to process chat message"),
   {| st_db := empty_db;
      st_trace := [EvSend (get_companion_chat "s-1")
                     "I am worried about tomorrow." (Err GatewayError);
                   EvLog "Error in chat: " GatewayError] |}).
Proof.
  exact (X6_chat_companion_failure (constant_world (Err GatewayError))
           sample_chat init_state GatewayError eq_refl).
Defined.

(** X7: when the companion answers and the analysis has returned [a]
    (the failure default if the second gateway call failed), the turn
    returned carries the companion's reply and the sentiment of [a]; it
    is stored if the store takes the write, and the route raises its
    HTTP 500 error with the store unchanged otherwise. *)
Theorem X7_chat_outcome {U : Unicode} (w : world) (chat_req : ChatRequest)
    (st sta : state) (ai_response : string) (a : Analysis) :
  let chat := get_companion_chat (cr_session_id chat_req) in
  let st1 := emit (EvSend chat (cr_message chat_req) (Ok ai_response)) st in
  w_gateway w (length (st_trace st)) chat (cr_message chat_req) = Ok ai_response ->
  exec w (analyze_sentiment (cr_message chat_req)) st1 = (Ok a, sta) ->
  let t := length (st_trace sta) in
  let turn := chat_message_of chat_req ai_response a (w_uuid w t) (w_now w (S t)) in
  let out := exec w (chat_with_companion chat_req) st in
  if w_store_up w (S (S t))
  then out.1 = Ok turn /\
       st_db out.2 =
       coll_insert chat_messages (prepare_for_mongo (ChatMessage_dict turn)) (st_db st)
  else out.1 = Err (HTTPException 500 "Failed to process chat message") /\
       st_db out.2 = st_db st.
Proof.
  intros chat st1 Hg Hexec t turn out.
  assert (st_db sta = st_db st) as Hdb.
  { pose proof (exec_analyze_db w (cr_message chat_req) st1) as Hd.
    by rewrite Hexec in Hd. }
  subst out. unfold chat_with_companion.
  rewrite exec_guard. unfold mbind, prog_bind, send_message.
  cbn [bind exec]. fold chat. rewrite Hg. cbn [lift bind].
  fold st1. rewrite exec_bind, Hexec.
  unfold ChatMessage_init, uuid4, utcnow, insert_one, mbind, prog_bind.
  cbn [bind exec]. rewrite !length_emit. fold t.
  destruct (w_store_up w (S (S t))); cbn [lift bind exec fst snd st_db emit];
    rewrite <- Hdb; done.
Qed.

Lemma X7_chat_outcome_witness :
  let w := {| w_gateway := fun t _ _ =>
                match t with
                | O => Ok "That sounds hard. One step at a time."
                | _ => Err GatewayError
                end;
              w_store_up := fun _ => true;
              w_uuid := fun _ => "id-1";
              w_now := fun _ => Datetime "2025-01-01T00:00:00+00:00" |} in
  (exec w (chat_with_companion sample_chat) init_state).1 =
    Ok (chat_message_of sample_chat "That sounds hard. One step at a time."
          failure_default "id-1" (Datetime "2025-01-01T00:00:00+00:00")) /\
  cm_sentiment
    (chat_message_of sample_chat "That sounds hard. One step at a time."
       failure_default "id-1" (Datetime "2025-01-01T00:00:00+00:00"))
  = Some "neutral".
Proof.
  intros w. split; [|reflexivity].
  refine (proj1 (X7_chat_outcome w sample_chat init_state _
                   "That sounds hard. One step at a time." failure_default
                   eq_refl _)).
  reflexivity.
Defined.

(** X8: [create_mood_checkin] stores the three levels as the integers it
    is given, with no range check: if the store takes the write the
    check-in returned has the request's fields and the store gains
    exactly its document; otherwise the route raises its HTTP 500 error
    and the store is as before. *)
Theorem X8_create_mood_checkin_outcome (w : world) (checkin : MoodCheckInCreate)
    (st : state) :
  let t := length (st_trace st) in
  let c := mood_checkin_of checkin (w_uuid w t) (w_now w (S t)) in
  let out := exec w (create_mood_checkin checkin) st in
  if w_store_up w (S (S t))
  then out.1 = Ok c /\
       st_db out.2 =
       coll_insert mood_checkins (prepare_for_mongo (MoodCheckIn_dict c)) (st_db st) /\
       prepare_for_mongo (MoodCheckIn_dict c) !! "mood_level"
       = Some (VInt (mcc_mood_level checkin)) /\
       prepare_for_mongo (MoodCheckIn_dict c) !! "stress_level"
       = Some (VInt (mcc_stress_level checkin))
  else out.1 = Err (HTTPException 500 "Failed to create mood check-in") /\
       st_db out.2 = st_db st.
Proof.
  intros t c out. subst out. unfold create_mood_checkin.
  rewrite exec_guard. unfold mbind, prog_bind.
  rewrite MoodCheckIn_init_checkin. unfold insert_one.
  cbn [bind exec]. rewrite !length_emit. fold t.
  destruct (w_store_up w (S (S t))); cbn [lift bind exec fst snd st_db emit];
    done.
Qed.

(** ** What the routes never do *)



Section ReadOnly.

Context {U : Unicode}.

Let never : collection -> document -> Prop := fun _ _ => False.

Lemma wo_JournalEntry_init (kw : document) : writes_only never (JournalEntry_init kw).
Proof.
  unfold JournalEntry_init, kw_id, kw_created_at, uuid4, utcnow, mbind, prog_bind.
  repeat (first [ apply wo_bind | apply wo_lift | intros ? ]);
    repeat case_match; repeat constructor.
Qed.

Lemma wo_ChatMessage_of_kw (kw : document) : writes_only never (ChatMessage_of_kw kw).
Proof.
  unfold ChatMessage_of_kw, kw_id, kw_created_at, uuid4, utcnow, mbind, prog_bind.
  repeat (first [ apply wo_bind | apply wo_lift | intros ? ]);
    repeat case_match; repeat constructor.
Qed.

Lemma wo_MoodCheckIn_init (kw : document) : writes_only never (MoodCheckIn_init kw).
Proof.
  unfold MoodCheckIn_init, kw_id, kw_created_at, uuid4, utcnow, mbind, prog_bind.
  repeat (first [ apply wo_bind | apply wo_lift | intros ? ]);
    repeat case_match; repeat constructor.
Qed.

Lemma wo_for_each {A B : Type} (f : A -> prog B) (l : list A) :
  (forall x, writes_only never (f x)) -> writes_only never (for_each f l).
Proof.
  intros Hf. induction l as [|x l IH]; simpl; [constructor|].
  unfold mbind, prog_bind. apply wo_bind; [apply Hf|]. intros y.
  apply wo_bind; [apply IH|]. constructor.
Qed.

Lemma wo_read_route {B : Type} (c : collection) (q : query) (key : string)
    (dir : Z) (limit : Z) (f : document -> prog B) (msg : string) (E : exn) :
  (forall kw, writes_only never (f kw)) ->
  writes_only never
    (try_except
       (n ← to_list_length limit;
        docs ← find c q key dir n;
        for_each f docs)
       (fun e => _ ← log_error msg e; Raise E)).
Proof.
  intros Hf. unfold to_list_length, find, log_error, mbind, prog_bind.
  apply wo_try_except; [|intros; repeat constructor].
  apply wo_bind; [case_match; constructor|]. intros n.
  cbn [bind]. constructor. intros r.
  apply wo_bind; [apply wo_lift|]. intros docs. by apply wo_for_each.
Qed.

Lemma wo_get_user_stats_never (u : string) : writes_only never (get_user_stats u).
Proof.
  unfold get_user_stats, count_documents, find, log_error, mbind, prog_bind.
  apply wo_try_except; [|intros; repeat constructor].
  cbn [bind]. constructor; intros r.
  apply wo_bind; [apply wo_lift|]. intros total.
  cbn [bind]. constructor; intros r'.
  repeat (apply wo_bind; [apply wo_lift|]; intros ?). constructor.
Qed.

Lemma read_only_never {A : Type} (p : prog A) :
  writes_only never p -> read_only p.
Proof.
  intros Hp w st.
  apply (exec_writes_only never (fun db => db = st_db st) w p); [done|done|done].
Qed.

End ReadOnly.

(** X10: the four [GET] routes and the sentiment analysis never write:
    whatever the gateway and the store do, the store afterwards is the
    store before. *)
Theorem X10_reads_leave_store_unchanged {U : Unicode} :
  (forall u limit, read_only (get_journal_entries u limit)) /\
  (forall u s limit, read_only (get_chat_history u s limit)) /\
  (forall u limit, read_only (get_mood_checkins u limit)) /\
  (forall u, read_only (get_user_stats u)) /\
  (forall content, read_only (analyze_sentiment content)).
Proof.
  repeat split; intros; apply read_only_never.
  - apply wo_read_route, wo_JournalEntry_init.
  - apply wo_read_route, wo_ChatMessage_of_kw.
  - apply wo_read_route, wo_MoodCheckIn_init.
  - apply wo_get_user_stats_never.
  - apply wo_analyze.
Qed.

(** ** The threshold rules and the range of the averages *)

(** X11: the recommendation and pattern rules, for any two averages.
    There is always a recommendation and never more than four; the
    affirming string is given exactly when neither threshold rule fires,
    and then alone; there are at most two patterns, and the positive and
    the lower-mood pattern never come together. *)
Theorem X11_threshold_rules (total : nat) (am ast : float) :
  let s := user_stats total am ast in
  recommendations s <> [] /\
  (length (recommendations s) <= 4)%nat /\
  (gtb ast three_half = false /\ ltb am two_half = false <->
   recommendations s = [rec_keep_up]) /\
  (In rec_keep_up (recommendations s) -> recommendations s = [rec_keep_up]) /\
  (length (recent_patterns s) <= 2)%nat /\
  ~ (In pat_positive (recent_patterns s) /\ In pat_lower (recent_patterns s)).
Proof.
  cbn [user_stats recommendations recent_patterns].
  unfold make_recommendations, make_recent_patterns.
  destruct (gtb ast three_half), (ltb am two_half), (gtb am three_half);
    cbn; repeat split; try done; try lia;
    try (intros [? ?]; done); try (intros ?; done);
    unfold rec_keep_up, rec_breaks, rec_breathing, rec_joy, rec_reach_out,
      pat_positive, pat_lower, pat_stress;
    intuition discriminate.
Qed.

(** Every pair of a sample count from 1 to 10 and a sum of that many
    samples from 1 to 5 passes a check that passes on the whole table. *)
Lemma sample_table (f : Z -> Z -> bool) :
  forallb (fun n => forallb (fun s => f s n) (seqZ n (4 * n + 1))) (seqZ 1 10) = true ->
  forall s n, 1 <= n <= 10 -> n <= s <= 5 * n -> f s n = true.
Proof.
  intros H s n Hn Hs.
  rewrite forallb_forall in H.
  specialize (H n). rewrite <- list_elem_of_In, elem_of_seqZ in H.
  specialize (H ltac:(lia)).
  rewrite forallb_forall in H.
  specialize (H s). rewrite <- list_elem_of_In, elem_of_seqZ in H.
  apply H. lia.
Qed.

Lemma average_in_range_all :
  forallb (fun n => forallb (fun s => average_in_range s n) (seqZ n (4 * n + 1)))
          (seqZ 1 10) = true.
Proof. vm_compute. reflexivity. Qed.

Lemma average_bounds (key : string) (docs : list document) :
  docs <> [] -> (length docs <= 10)%nat ->
  Forall (fun c => exists z, int_field key c = Ok z /\ 1 <= z <= 5) docs ->
  exists a, average key docs = Ok a /\
            leb (tenths 10) (round1 a) = true /\
            leb (round1 a) (tenths 50) = true.
Proof.
  intros Hne Hlen Hall.
  destruct (sum_field_bounds key docs Hall) as (s & Hs & Hb).
  assert (1 <= Z.of_nat (length docs) <= 10) as Hn.
  { destruct docs; [done|]. rewrite length_cons in *. lia. }
  pose proof (sample_table _ average_in_range_all s _ Hn Hb) as H.
  unfold average_in_range in H.
  assert (average key docs = truediv s (Z.of_nat (length docs))) as ->.
  { unfold average. destruct docs; [done|]. by rewrite Hs. }
  destruct (truediv s (Z.of_nat (length docs))) as [a| |]; [|done..].
  apply andb_prop in H as [H1 H2]. eauto.
Qed.

(** X12: with one to ten check-ins whose mood and stress samples lie
    between 1 and 5, both averages exist and the figures reported lie
    between 1.0 and 5.0. *)
Theorem X12_averages_in_range (total : nat) (docs : list document) :
  docs <> [] ->
  (length docs <= 10)%nat ->
  Forall (fun c => exists z, int_field "mood_level" c = Ok z /\ 1 <= z <= 5) docs ->
  Forall (fun c => exists z, int_field "stress_level" c = Ok z /\ 1 <= z <= 5) docs ->
  exists am ast,
    average "mood_level" docs = Ok am /\
    average "stress_level" docs = Ok ast /\
    leb (tenths 10) (avg_mood (user_stats total am ast)) = true /\
    leb (avg_mood (user_stats total am ast)) (tenths 50) = true /\
    leb (tenths 10) (avg_stress (user_stats total am ast)) = true /\
    leb (avg_stress (user_stats total am ast)) (tenths 50) = true.
Proof.
  intros Hne Hlen Hm Hs.
  destruct (average_bounds "mood_level" docs Hne Hlen Hm) as (am & ? & ? & ?).
  destruct (average_bounds "stress_level" docs Hne Hlen Hs) as (ast & ? & ? & ?).
  exists am, ast. by repeat split.
Qed.

Lemma X12_averages_in_range_witness :
  let docs := [checkin_doc "alice" 1 5 "2025-03-01T09:00:00+00:00";
               checkin_doc "alice" 2 5 "2025-03-02T09:00:00+00:00"] in
  exists am ast,
    average "mood_level" docs = Ok am /\
    average "stress_level" docs = Ok ast /\
    leb (tenths 10) (avg_mood (user_stats 0 am ast)) = true /\
    leb (avg_mood (user_stats 0 am ast)) (tenths 50) = true /\
    leb (tenths 10) (avg_stress (user_stats 0 am ast)) = true /\
    leb (avg_stress (user_stats 0 am ast)) (tenths 50) = true.
Proof.
  intros docs. apply (X12_averages_in_range 0 docs).
  - discriminate.
  - simpl. lia.
  - unfold docs.
    repeat (apply List.Forall_cons;
            [eexists; split; [vm_compute; reflexivity|lia]|]).
    apply List.Forall_nil.
  - unfold docs.
    repeat (apply List.Forall_cons;
            [eexists; split; [vm_compute; reflexivity|lia]|]).
    apply List.Forall_nil.
Defined.

(** ** The shape of every analysis result *)

Section Normalised.

Context {U : Unicode}.

Lemma startswith_app_l (a b p : string) :
  PyStr.startswith a p = true -> PyStr.startswith (a ++ b) p = true.
Proof.
  revert a. induction p as [|c p IH]; intros a H.
  - by destruct (a ++ b).
  - destruct a as [|d a]; [done|]. simpl in *.
    apply andb_prop in H as [Hc H]. rewrite Hc. by apply IH.
Qed.

Lemma startswith_length (s p : string) :
  PyStr.startswith s p = true -> (String.length p <= String.length s)%nat.
Proof.
  revert s. induction p as [|c p IH]; intros s H; cbn; [lia|].
  destruct s as [|d s]; [done|]. cbn [PyStr.startswith String.length] in *.
  apply andb_prop in H as [_ H]. specialize (IH _ H). lia.
Qed.

Lemma spaces2_length : Forall (fun p => String.length p = 2%nat) PyStr.spaces2.
Proof. repeat constructor. Qed.

Lemma spaces3_length : Forall (fun p => String.length p = 3%nat) PyStr.spaces3.
Proof. repeat constructor. Qed.

Lemma existsb_startswith_length (s : string) (n : nat) (ps : list string) :
  Forall (fun p => String.length p = n) ps ->
  existsb (PyStr.startswith s) ps = true -> (n <= String.length s)%nat.
Proof.
  intros Hps H. apply existsb_exists in H as (p & Hin & Hp).
  rewrite List.Forall_forall in Hps. rewrite <- (Hps p Hin).
  by apply startswith_length.
Qed.

Lemma existsb_startswith_app (a b : string) (ps : list string) :
  existsb (PyStr.startswith a) ps = true ->
  existsb (PyStr.startswith (a ++ b)) ps = true.
Proof.
  intros H. apply existsb_exists in H as (p & Hin & Hp).
  apply existsb_exists. exists p. split; [done|]. by apply startswith_app_l.
Qed.

(** [lstrip], by the white-space character at the head. *)
Lemma lstrip_0 (s : string) : PyStr.space_width s = 0%nat -> PyStr.lstrip s = s.
Proof. intros H. destruct s; cbn [PyStr.lstrip]; by rewrite ?H. Qed.

Lemma lstrip_1 (c : ascii) (s : string) :
  PyStr.ascii_space c = true -> PyStr.lstrip (String c s) = PyStr.lstrip s.
Proof. intros H. cbn [PyStr.lstrip PyStr.space_width]. by rewrite H. Qed.

Lemma lstrip_2 (a b : ascii) (s : string) :
  PyStr.ascii_space a = false ->
  existsb (PyStr.startswith (String a (String b s))) PyStr.spaces2 = true ->
  PyStr.lstrip (String a (String b s)) = PyStr.lstrip s.
Proof. intros Ha H. cbn [PyStr.lstrip PyStr.space_width]. by rewrite Ha, H. Qed.

Lemma lstrip_3 (a b c : ascii) (s : string) :
  PyStr.ascii_space a = false ->
  existsb (PyStr.startswith (String a (String b (String c s)))) PyStr.spaces2 = false ->
  existsb (PyStr.startswith (String a (String b (String c s)))) PyStr.spaces3 = true ->
  PyStr.lstrip (String a (String b (String c s))) = PyStr.lstrip s.
Proof.
  intros Ha H2 H3. cbn [PyStr.lstrip PyStr.space_width]. by rewrite Ha, H2, H3.
Qed.

(** Induction along the white-space characters [lstrip] removes. *)
Lemma lstrip_induction (P : string -> string -> Prop) :
  (forall s, PyStr.space_width s = 0%nat -> P s s) ->
  (forall c s, PyStr.ascii_space c = true ->
     P s (PyStr.lstrip s) -> P (String c s) (PyStr.lstrip s)) ->
  (forall a b s, PyStr.ascii_space a = false ->
     existsb (PyStr.startswith (String a (String b s))) PyStr.spaces2 = true ->
     P s (PyStr.lstrip s) -> P (String a (String b s)) (PyStr.lstrip s)) ->
  (forall a b c s, PyStr.ascii_space a = false ->
     existsb (PyStr.startswith (String a (String b (String c s)))) PyStr.spaces2 = false ->
     existsb (PyStr.startswith (String a (String b (String c s)))) PyStr.spaces3 = true ->
     P s (PyStr.lstrip s) ->
     P (String a (String b (String c s))) (PyStr.lstrip s)) ->
  forall s, P s (PyStr.lstrip s).
Proof.
  intros H0 H1 H2 H3 s.
  remember (String.length s) as n eqn:Hn. revert s Hn.
  induction n as [n IH] using lt_wf_ind. intros s ->.
  destruct s as [|a s].
  { rewrite lstrip_0 by done. by apply H0. }
  destruct (PyStr.ascii_space a) eqn:Ha.
  { rewrite lstrip_1 by done. apply H1; [done|].
    eapply IH; [|reflexivity]. cbn. lia. }
  destruct (existsb (PyStr.startswith (String a s)) PyStr.spaces2) eqn:E2.
  { pose proof (existsb_startswith_length _ _ _ spaces2_length E2) as Hl.
    destruct s as [|b s]; [cbn in Hl; lia|].
    rewrite lstrip_2 by done. apply H2; [done..|].
    eapply IH; [|reflexivity]. cbn. lia. }
  destruct (existsb (PyStr.startswith (String a s)) PyStr.spaces3) eqn:E3.
  { pose proof (existsb_startswith_length _ _ _ spaces3_length E3) as Hl.
    destruct s as [|b [|c s]]; [cbn in Hl; lia..|].
    rewrite lstrip_3 by done. apply H3; [done..|].
    eapply IH; [|reflexivity]. cbn. lia. }
  assert (PyStr.space_width (String a s) = 0%nat) as Hw.
  { cbn [PyStr.space_width]. by rewrite Ha, E2, E3. }
  rewrite lstrip_0 by done. by apply H0.
Qed.

(** What [lstrip] returns starts with no white space. *)
Lemma space_width_lstrip (s : string) :
  PyStr.space_width (PyStr.lstrip s) = 0%nat.
Proof. by apply (lstrip_induction (fun _ r => PyStr.space_width r = 0%nat)). Qed.

(** White space in front of a text is removed with the white space the
    text starts with. *)
Lemma lstrip_app_blank (a b : string) :
  PyStr.blank a = true -> PyStr.lstrip (a ++ b) = PyStr.lstrip b.
Proof.
  unfold PyStr.blank.
  apply (lstrip_induction
           (fun a r => match r with "" => true | String _ _ => false end = true ->
                       PyStr.lstrip (a ++ b) = PyStr.lstrip b)).
  - intros s _. by destruct s.
  - intros c s Hc IH Hr. change (String c s ++ b) with (String c (s ++ b)).
    rewrite lstrip_1 by done. auto.
  - intros x y s Hx H2 IH Hr.
    change (String x (String y s) ++ b) with (String x (String y (s ++ b))).
    rewrite lstrip_2; auto.
    by apply (existsb_startswith_app (String x (String y s)) b).
  - intros x y z s Hx H2 H3 IH Hr.
    change (String x (String y (String z s)) ++ b)
      with (String x (String y (String z (s ++ b)))).
    rewrite lstrip_3; [by auto|done| |].
    + rewrite <- H2. clear. cbn. reflexivity.
    + by apply (existsb_startswith_app (String x (String y (String z s))) b).
Qed.

(** What [rstrip] drops is white space. *)
Lemma rstrip_tail (s : string) :
  exists tail, s = PyStr.rstrip s ++ tail /\ PyStr.blank tail = true.
Proof.
  induction s as [|c s (tail & Hs & Ht)]; [by exists ""|].
  cbn [PyStr.rstrip]. destruct (PyStr.blank (String c s)) eqn:Hb.
  - by exists (String c s).
  - exists tail. split; [|done].
    change (String c (PyStr.rstrip s) ++ tail)
      with (String c (PyStr.rstrip s ++ tail)).
    by rewrite <- Hs.
Qed.

Lemma blank_app (a b : string) :
  PyStr.blank a = true -> PyStr.blank b = true -> PyStr.blank (a ++ b) = true.
Proof.
  intros Ha Hb. unfold PyStr.blank in *. by rewrite lstrip_app_blank.
Qed.

Lemma rstrip_idem (s : string) : PyStr.rstrip (PyStr.rstrip s) = PyStr.rstrip s.
Proof.
  induction s as [|c s IH]; [done|].
  cbn [PyStr.rstrip]. destruct (PyStr.blank (String c s)) eqn:Hb; [done|].
  cbn [PyStr.rstrip]. rewrite IH.
  destruct (PyStr.blank (String c (PyStr.rstrip s))) eqn:Hb'; [|done].
  destruct (rstrip_tail s) as (tail & Hs & Ht).
  rewrite Hs in Hb. change (String c (PyStr.rstrip s ++ tail))
    with (String c (PyStr.rstrip s) ++ tail) in Hb.
  by rewrite blank_app in Hb.
Qed.

(** What [rstrip] returns starts as its argument does. *)
Lemma space_width_rstrip (s : string) :
  PyStr.space_width s = 0%nat -> PyStr.space_width (PyStr.rstrip s) = 0%nat.
Proof.
  destruct (rstrip_tail s) as (tail & Hs & _).
  destruct (PyStr.rstrip s) as [|c r] eqn:Hr; [done|].
  intros Hw. rewrite Hs in Hw.
  change (String c r ++ tail) with (String c (r ++ tail)) in Hw.
  cbn [PyStr.space_width] in *.
  destruct (PyStr.ascii_space c); [done|].
  destruct (existsb _ PyStr.spaces2) eqn:E2 in |- *.
  { apply (existsb_startswith_app _ tail) in E2.
    change (String c r ++ tail) with (String c (r ++ tail)) in E2.
    by rewrite E2 in Hw. }
  destruct (existsb _ PyStr.spaces3) eqn:E3 in |- *; [|done].
  apply (existsb_startswith_app _ tail) in E3.
  change (String c r ++ tail) with (String c (r ++ tail)) in E3.
  rewrite E3 in Hw. by destruct (existsb _ PyStr.spaces2) in Hw.
Qed.

(** Stripping a stripped text changes nothing. *)
Lemma strip_idem (s : string) : PyStr.strip (PyStr.strip s) = PyStr.strip s.
Proof.
  unfold PyStr.strip.
  rewrite (lstrip_0 (PyStr.rstrip (PyStr.lstrip s))).
  - apply rstrip_idem.
  - apply space_width_rstrip, space_width_lstrip.
Qed.

(** A property of the result that every iteration keeps holds at the
    end of the loop. *)
Lemma parse_lines_invariant (I : Analysis -> Prop) (lines : list string) :
  (forall r line r', I r -> line_effect r line r' -> I r') ->
  forall result r, I result -> parse_lines result lines = Ok r -> I r.
Proof.
  intros Hstep. induction lines as [|l ls IH]; intros result r Hres Hp;
    simpl in Hp; [by simplify_eq|].
  destruct (parse_line_effect result l) as (r1 & H1 & He).
  rewrite H1 in Hp. simpl in Hp. eapply IH; [|exact Hp]. eauto.
Qed.

Lemma lower_char_ascii (c : ascii) :
  PyStr.is_ascii_char (PyStr.lower_char c) = PyStr.is_ascii_char c /\
  PyStr.ascii_space (PyStr.lower_char c) = PyStr.ascii_space c /\
  PyStr.lower_char (PyStr.lower_char c) = PyStr.lower_char c.
Proof. by destruct c as [[] [] [] [] [] [] [] []]. Qed.

Lemma is_ascii_lower (s : string) :
  PyStr.is_ascii (PyStr.ascii_lower s) = PyStr.is_ascii s.
Proof.
  induction s as [|c s IH]; [done|]. cbn [PyStr.ascii_lower PyStr.is_ascii].
  destruct (lower_char_ascii c) as (-> & _ & _). by rewrite IH.
Qed.

Lemma ascii_lower_idem (s : string) :
  PyStr.ascii_lower (PyStr.ascii_lower s) = PyStr.ascii_lower s.
Proof.
  induction s as [|c s IH]; [done|]. cbn [PyStr.ascii_lower].
  destruct (lower_char_ascii c) as (_ & _ & ->). by rewrite IH.
Qed.

Lemma lstrip_ascii_lower (s : string) :
  PyStr.is_ascii s = true ->
  PyStr.lstrip (PyStr.ascii_lower s) = PyStr.ascii_lower (PyStr.lstrip s).
Proof.
  induction s as [|c s IH]; [done|]. intros H.
  cbn [PyStr.is_ascii] in H. apply andb_prop in H as [Hc Hs].
  cbn [PyStr.ascii_lower].
  destruct (lower_char_ascii c) as (Ha & Hsp & _).
  rewrite !lstrip_ascii_cons, Hsp by (by rewrite ?Ha).
  destruct (PyStr.ascii_space c); auto.
Qed.

Lemma blank_ascii_lower (s : string) :
  PyStr.is_ascii s = true -> PyStr.blank (PyStr.ascii_lower s) = PyStr.blank s.
Proof.
  intros H. unfold PyStr.blank. rewrite lstrip_ascii_lower by done.
  by destruct (PyStr.lstrip s).
Qed.

Lemma rstrip_ascii_lower (s : string) :
  PyStr.is_ascii s = true ->
  PyStr.rstrip (PyStr.ascii_lower s) = PyStr.ascii_lower (PyStr.rstrip s).
Proof.
  induction s as [|c s IH]; [done|]. intros H.
  pose proof (blank_ascii_lower _ H) as Hb.
  cbn [PyStr.is_ascii] in H. apply andb_prop in H as [Hc Hs].
  cbn [PyStr.ascii_lower PyStr.rstrip] in *. rewrite Hb.
  destruct (PyStr.blank (String c s)); [done|].
  cbn [PyStr.ascii_lower]. by rewrite IH.
Qed.

Lemma strip_ascii_lower (s : string) :
  PyStr.is_ascii s = true ->
  PyStr.strip (PyStr.ascii_lower s) = PyStr.ascii_lower (PyStr.strip s).
Proof.
  intros H. unfold PyStr.strip.
  rewrite lstrip_ascii_lower, rstrip_ascii_lower by auto using is_ascii_lstrip.
  done.
Qed.

Lemma is_ascii_app (a b : string) :
  PyStr.is_ascii (a ++ b) = PyStr.is_ascii a && PyStr.is_ascii b.
Proof.
  induction a as [|c a IH]; [done|].
  change (String c a ++ b) with (String c (a ++ b)).
  cbn [PyStr.is_ascii]. by rewrite IH, andb_assoc.
Qed.

(** The label read from ASCII text. *)
Lemma plain_label_lower_strip (rest : string) :
  PyStr.is_ascii rest = true -> plain_label (PyStr.lower (PyStr.strip rest)).
Proof.
  intros H. pose proof (is_ascii_strip rest H) as Hs.
  unfold PyStr.lower. rewrite Hs. split.
  - apply ascii_lower_idem.
  - rewrite strip_ascii_lower by done. by rewrite strip_idem.
Qed.

Lemma plain_label_step (r : Analysis) (line : string) (r' : Analysis) :
  PyStr.is_ascii line = true ->
  plain_label (sentiment r) -> line_effect r line r' ->
  plain_label (sentiment r').
Proof.
  intros Hl Hr He.
  destruct He as [rest ->|rest _|rest _|rest _ Hn|rest _ Hn|Hrec]; try done.
  rewrite is_ascii_app in Hl. apply andb_prop in Hl as [_ Hl].
  by apply plain_label_lower_strip.
Qed.

Lemma parse_lines_plain_label (lines : list string) (result r : Analysis) :
  Forall (fun l => PyStr.is_ascii l = true) lines ->
  plain_label (sentiment result) ->
  parse_lines result lines = Ok r ->
  plain_label (sentiment r).
Proof.
  intros Hl. revert result. induction Hl as [|l ls Hl _ IH]; intros result Hres Hp;
    simpl in Hp; [by simplify_eq|].
  destruct (parse_line_effect result l) as (r1 & H1 & He).
  rewrite H1 in Hp. simpl in Hp. eapply IH; [|exact Hp].
  by eapply plain_label_step.
Qed.

End Normalised.

Lemma well_formed_step {U : Unicode} (r : Analysis) (line : string)
    (r' : Analysis) :
  well_formed r -> line_effect r line r' -> well_formed r'.
Proof.
  intros [Hi Hs] He.
  destruct He as [rest _|rest _|rest _|rest _ Hn|rest _ Hn|Hrec]; try done.
  - split; [apply strip_idem|done].
  - split; [done|]. right. eexists. split; [done|].
    split; [apply strip_idem|]. intros H. rewrite H in Hn. done.
Qed.

(** X13: in every result of the analysis the insight has no white space
    around it, and the stress indicators are either none or a single
    text, without white space around it, that is not "none" in any
    case.  The analysis returns such a result unless the request is
    cancelled while the gateway is awaited. *)
Theorem X13_analysis_well_formed {U : Unicode} (w : world) (content : string)
    (st : state) :
  match (exec w (analyze_sentiment content) st).1 with
  | Ok r => well_formed r
  | Err _ => False
  | ErrBase b => analysis_reply w content st = ErrBase b
  end.
Proof.
  assert (well_formed parse_default) as Hd by (split; [reflexivity|by left]).
  destruct (analysis_reply w content st) as [response|e|b] eqn:Hg.
  - destruct (parse_response_total response) as [r Hr].
    rewrite (exec_analyze_ok w content st response r Hg Hr). cbn.
    eapply (parse_lines_invariant well_formed); [|exact Hd|exact Hr].
    intros. by eapply well_formed_step.
  - rewrite (exec_analyze_err w content st e Hg).
    split; [reflexivity|by left].
  - by rewrite (exec_analyze_base w content st b Hg).
Qed.

(** X24: for a reply in ASCII the sentiment label returned holds no
    upper-case letter and has no white space around it. *)
Theorem X24_ascii_reply_label {U : Unicode} (w : world) (content : string)
    (st : state) (response : string) :
  analysis_reply w content st = Ok response ->
  PyStr.is_ascii response = true ->
  exists r,
    (exec w (analyze_sentiment content) st).1 = Ok r /\
    plain_label (sentiment r).
Proof.
  intros Hg Ha.
  destruct (parse_response_total response) as [r Hr].
  exists r. rewrite (exec_analyze_ok w content st response r Hg Hr).
  split; [done|].
  apply (parse_lines_plain_label (lines_of response) parse_default r);
    [|by split|exact Hr].
  by apply is_ascii_split, is_ascii_strip.
Qed.

Lemma X24_ascii_reply_label_witness :
  exists r,
    (exec (constant_world
             (Ok (PyStr.join_lines
                    ["Sentiment:   Mixed, Mostly POSITIVE  "; "Mood Score: 6"])))
          (analyze_sentiment "Ups and downs.") init_state).1 = Ok r /\
    plain_label (sentiment r).
Proof.
  apply (X24_ascii_reply_label _ _ _
           (PyStr.join_lines
              ["Sentiment:   Mixed, Mostly POSITIVE  "; "Mood Score: 6"])).
  - reflexivity.
  - reflexivity.
Defined.

(** X14: lines that start with none of the four prefixes are ignored:
    wherever they stand among the lines of a reply, the loop gives the
    result it gives without them. *)
Theorem X14_unrecognized_lines_ignored {U : Unicode} (result : Analysis)
    (l1 noise l2 : list string) :
  Forall (fun l => recognized l = false) noise ->
  parse_lines result (l1 ++ noise ++ l2) = parse_lines result (l1 ++ l2).
Proof.
  intros Hn. rewrite !parse_lines_app.
  destruct (parse_lines result l1) as [r| |]; cbn [rbind]; [|done..].
  by rewrite parse_lines_app, (parse_lines_unrecognized noise r Hn).
Qed.

Lemma X14_unrecognized_lines_ignored_witness :
  parse_lines parse_default
    (["Sentiment: Mixed"] ++ ["Here is my analysis."; "sentiment: sad"; ""]
     ++ ["Mood Score: 4"]) =
  parse_lines parse_default (["Sentiment: Mixed"] ++ ["Mood Score: 4"]).
Proof.
  apply (X14_unrecognized_lines_ignored parse_default ["Sentiment: Mixed"]
           ["Here is my analysis."; "sentiment: sad"; ""] ["Mood Score: 4"]).
  repeat (apply List.Forall_cons; [reflexivity|]). apply List.Forall_nil.
Defined.

(** ** The store seen through the statistics *)

Section Counting.

Context {U : Unicode}.

Lemma filter_coll_insert (q : query) (c c' : collection) (d : document)
    (db : database) :
  List.filter (matches q) (coll_get c' (coll_insert c d db)) =
  (List.filter (matches q) (coll_get c' db) ++
   match c, c' with
   | journal_entries, journal_entries
   | chat_messages, chat_messages
   | mood_checkins, mood_checkins => if matches q d then [d] else []
   | _, _ => []
   end)%list.
Proof.
  destruct c, c'; cbn [coll_get coll_insert db_journal_entries
                       db_chat_messages db_mood_checkins];
    rewrite ?List.filter_app, ?app_nil_r; try done;
    cbn [List.filter]; by destruct (matches q d).
Qed.

Lemma filter_coll_insert_other (q : query) (c c' : collection) (d : document)
    (db : database) :
  matches q d = false ->
  List.filter (matches q) (coll_get c' (coll_insert c d db)) =
  List.filter (matches q) (coll_get c' db).
Proof.
  intros H. rewrite filter_coll_insert, H.
  destruct c, c'; by rewrite app_nil_r.
Qed.

Lemma journal_document_matches (entry : JournalEntryCreate) (a : Analysis)
    (id : string) (now : datetime) (u : string) :
  matches [("user_id", u)] (journal_document entry a id now) =
  String.eqb (jc_user_id entry) u.
Proof.
  unfold matches. cbn [forallb fst snd].
  change (journal_document entry a id now !! "user_id")
    with (Some (VStr (jc_user_id entry))).
  by rewrite andb_true_r.
Qed.

(** What [get_user_stats] returns, in closed form. *)
Lemma get_user_stats_result (w : world) (u : string) (st : state) :
  let t := length (st_trace st) in
  let recent := run_find (st_db st) mood_checkins [("user_id", u)]
                  "created_at" (-1) 10 in
  (exec w (get_user_stats u) st).1 =
  if w_store_up w t && w_store_up w (S t) then
    match average "mood_level" recent with
    | Ok am =>
        match average "stress_level" recent with
        | Ok ast =>
            Ok (user_stats (run_count (st_db st) journal_entries [("user_id", u)])
                  am ast)
        | Err _ => Err (HTTPException 500 "Failed to fetch user statistics")
        | ErrBase b => ErrBase b
        end
    | Err _ => Err (HTTPException 500 "Failed to fetch user statistics")
    | ErrBase b => ErrBase b
    end
  else Err (HTTPException 500 "Failed to fetch user statistics").
Proof.
  intros t recent. unfold get_user_stats. rewrite exec_guard.
  unfold mbind, prog_bind, count_documents, find.
  cbn [bind exec]. fold t.
  destruct (w_store_up w t); cbn [lift bind exec andb]; [|done].
  rewrite length_emit. fold t.
  destruct (w_store_up w (S t)); cbn [lift bind exec emit st_db]; [|done].
  fold recent.
  destruct (average "mood_level" recent); cbn [lift bind exec]; [|done..].
  destruct (average "stress_level" recent); cbn [lift bind exec]; done.
Qed.

End Counting.

(** X15: the statistics of a user do not depend on what others store: a
    document of any collection that is not the user's, added to the
    store, changes nothing in what [get_user_stats] returns. *)
Theorem X15_stats_ignore_other_users (w : world) (u : string) (st : state)
    (c : collection) (d : document) :
  matches [("user_id", u)] d = false ->
  (exec w (get_user_stats u)
     {| st_db := coll_insert c d (st_db st); st_trace := st_trace st |}).1 =
  (exec w (get_user_stats u) st).1.
Proof.
  intros Hd. rewrite !get_user_stats_result.
  cbn [st_trace st_db]. unfold run_find, run_count.
  by rewrite !(filter_coll_insert_other _ c _ d _ Hd).
Qed.

Lemma X15_stats_ignore_other_users_witness :
  (exec (constant_world (Ok "")) (get_user_stats "alice")
     {| st_db := coll_insert mood_checkins
                   (checkin_doc "bob" 1 5 "2025-03-02T09:00:00+00:00")
                   (st_db (state_with_checkins
                             [checkin_doc "alice" 4 2 "2025-03-01T09:00:00+00:00"]));
        st_trace := [] |}).1 =
  (exec (constant_world (Ok "")) (get_user_stats "alice")
     (state_with_checkins
        [checkin_doc "alice" 4 2 "2025-03-01T09:00:00+00:00"])).1.
Proof.
  apply (X15_stats_ignore_other_users (constant_world (Ok "")) "alice"
           (state_with_checkins
              [checkin_doc "alice" 4 2 "2025-03-01T09:00:00+00:00"])
           mood_checkins (checkin_doc "bob" 1 5 "2025-03-02T09:00:00+00:00")).
  reflexivity.
Defined.

(** X16: a [POST /journal] that returns adds one to the number of the
    owner's journal entries and leaves the number of every other user's
    entries as it was; one that raises changes neither. *)
Theorem X16_journal_count_after_post {U : Unicode} (w : world)
    (entry : JournalEntryCreate) (st : state) (u : string) :
  let out := exec w (create_journal_entry entry) st in
  let before := run_count (st_db st) journal_entries [("user_id", u)] in
  let after := run_count (st_db out.2) journal_entries [("user_id", u)] in
  match out.1 with
  | Ok _ => after = if String.eqb (jc_user_id entry) u then S before else before
  | Err _ | ErrBase _ => after = before
  end.
Proof.
  intros out before after. subst out before after.
  unfold create_journal_entry.
  rewrite exec_guard. unfold mbind, prog_bind. rewrite exec_bind.
  destruct (exec_analyze_cases w (jc_content entry) st)
    as [(a & sta & Hexec & Hdb & _)|(b & sta & Hexec & Hdb)];
    rewrite Hexec; [|cbn; by rewrite Hdb].
  rewrite JournalEntry_init_entry.
  unfold insert_one. cbn [bind exec].
  destruct (w_store_up w _); cbn [lift bind exec fst snd st_db emit];
    rewrite Hdb; [|done].
  unfold run_count. rewrite filter_coll_insert.
  fold (journal_document entry a (w_uuid w (length (st_trace sta)))
          (w_now w (length (st_trace (emit (EvUuid (w_uuid w (length (st_trace sta)))) sta))))).
  rewrite journal_document_matches, length_app.
  destruct (String.eqb (jc_user_id entry) u); simpl; lia.
Qed.

(** X17: when [get_user_stats] returns, [total_entries] is the number of
    journal entries the store holds for that user. *)
Theorem X17_total_entries_counts_owner (w : world) (u : string) (st : state)
    (stats : UserStats) :
  (exec w (get_user_stats u) st).1 = Ok stats ->
  total_entries stats =
  length (List.filter (matches [("user_id", u)]) (db_journal_entries (st_db st))).
Proof.
  rewrite get_user_stats_result.
  destruct (w_store_up w _ && w_store_up w _); [|done].
  destruct (average "mood_level" _); [|done..].
  destruct (average "stress_level" _); [|done..].
  by intros [= <-].
Qed.

Lemma X17_total_entries_counts_owner_witness :
  let st := (exec (constant_world (Ok "Sentiment: positive"))
               (create_journal_entry sample_entry) init_state).2 in
  total_entries (user_stats 1 three three) =
  length (List.filter (matches [("user_id", "alice")])
            (db_journal_entries (st_db st))).
Proof.
  intros st.
  apply (X17_total_entries_counts_owner
           (constant_world (Ok "Sentiment: positive")) "alice" st).
  reflexivity.
Defined.

(** ** Writing an entry and reading it back *)

Lemma JournalEntry_init_stored (e : JournalEntry) :
  JournalEntry_init (prepare_for_mongo (JournalEntry_dict e)) = Ret e.
Proof. destruct e as [id u c [m|] [s|] tags [ai|] p [iso]]; reflexivity. Qed.

Lemma to_list_length_nonneg (limit : Z) :
  0 <= limit -> to_list_length limit = Ret (Z.to_nat limit).
Proof.
  intros H. unfold to_list_length.
  destruct (limit <? 0) eqn:Hl; [lia|done].
Qed.

(** X18: for a user with no journal entry yet, a [POST /journal] that
    returns followed by [GET /journal/{user_id}] with a limit of at
    least one and the store reachable gives back exactly the entry the
    [POST] returned. *)
Theorem X18_post_then_get_journal {U : Unicode} (w : world)
    (entry : JournalEntryCreate) (st : state) (je : JournalEntry) (limit : Z) :
  let u := jc_user_id entry in
  let out := exec w (create_journal_entry entry) st in
  List.filter (matches [("user_id", u)]) (db_journal_entries (st_db st)) = [] ->
  out.1 = Ok je ->
  1 <= limit ->
  w_store_up w (length (st_trace out.2)) = true ->
  (exec w (get_journal_entries u limit) out.2).1 = Ok [je].
Proof.
  intros u out Hnone Hje Hlimit Hup. subst out.
  revert Hje Hup. unfold create_journal_entry.
  rewrite exec_guard. unfold mbind, prog_bind. rewrite exec_bind.
  destruct (exec_analyze_cases w (jc_content entry) st)
    as [(a & sta & Hexec & Hdb & _)|(b & sta & Hexec & Hdb)];
    rewrite Hexec; [|done].
  rewrite JournalEntry_init_entry.
  unfold insert_one. cbn [bind exec].
  destruct (w_store_up w _); cbn [lift bind exec fst snd st_db emit]; [|done].
  intros [= <-] Hup.
  unfold get_journal_entries. rewrite exec_guard.
  rewrite to_list_length_nonneg by lia.
  unfold mbind, prog_bind, find. cbn [bind exec st_trace st_db].
  cbn [st_trace] in Hup. rewrite Hup. cbn [lift bind].
  unfold run_find. rewrite filter_coll_insert.
  cbn [coll_get]. rewrite Hdb, Hnone. cbn [app].
  match goal with
  | |- context [matches ?q ?d] =>
      replace (matches q d) with true
        by (symmetry; etransitivity;
            [apply (journal_document_matches entry a _ _ u)
            |apply String.eqb_refl])
  end.
  cbn [sort_docs fold_right sort_insert].
  destruct (Z.to_nat limit) as [|n] eqn:Hn; [lia|]. cbn [firstn for_each].
  unfold mbind, prog_bind.
  rewrite JournalEntry_init_stored, take_nil. reflexivity.
Qed.

Lemma X18_post_then_get_journal_witness :
  let w := constant_world (Ok "Sentiment: positive") in
  let out := exec w (create_journal_entry sample_entry) init_state in
  (exec w (get_journal_entries "alice" 20) out.2).1 =
  Ok [journal_entry_of sample_entry (set_sentiment parse_default "positive")
        (w_uuid w 1) (w_now w 2)].
Proof.
  intros w out.
  apply (X18_post_then_get_journal w sample_entry init_state _ 20).
  - reflexivity.
  - reflexivity.
  - lia.
  - reflexivity.
Defined.

(** ** What the read routes return *)

Section ReadRoutes.

Context {U : Unicode}.

Lemma Forall_sort_insert (P : document -> Prop) (key : string) (dir : Z)
    (x : document) (l : list document) :
  P x -> Forall P l -> Forall P (sort_insert key dir x l).
Proof.
  intros Hx. induction 1 as [|y l Hy Hl IH]; simpl.
  - by constructor.
  - destruct (sort_before key dir x y); repeat constructor; auto.
Qed.

Lemma Forall_sort_docs (P : document -> Prop) (key : string) (dir : Z)
    (l : list document) :
  Forall P l -> Forall P (sort_docs key dir l).
Proof.
  unfold sort_docs. induction 1; simpl; [constructor|].
  by apply Forall_sort_insert.
Qed.

(** What [find] hands over: at most [n] documents, each matching the
    filter. *)
Lemma run_find_spec (db : database) (c : collection) (q : query)
    (key : string) (dir : Z) (n : nat) :
  (length (run_find db c q key dir n) <= n)%nat /\
  Forall (fun d => matches q d = true) (run_find db c q key dir n).
Proof.
  unfold run_find. split.
  - rewrite length_take. lia.
  - apply Forall_take, Forall_sort_docs, List.Forall_forall.
    intros d Hd. by apply List.filter_In in Hd as [_ ?].
Qed.

Lemma exec_for_each {A B : Type} (w : world) (f : A -> prog B)
    (docs : list A) (st : state) (l : list B) :
  (exec w (for_each f docs) st).1 = Ok l ->
  Forall2 (fun d x => exists s, (exec w (f d) s).1 = Ok x) docs l.
Proof.
  revert st l. induction docs as [|d docs IH]; intros st l; simpl.
  - intros [= <-]. constructor.
  - unfold mbind, prog_bind. rewrite exec_bind.
    destruct (exec w (f d) st) as [[y|e|b] s1] eqn:Hd; [|done..].
    rewrite exec_bind.
    destruct (exec w (for_each f docs) s1) as [[ys|e|b] s2] eqn:Hds; [|done..].
    simpl. intros [= <-]. constructor.
    + exists st. by rewrite Hd.
    + apply (IH s1). by rewrite Hds.
Qed.

Lemma read_route_result {B : Type} (w : world) (c : collection) (q : query)
    (key : string) (dir limit : Z) (f : document -> prog B) (msg : string)
    (E : exn) (st : state) (l : list B) :
  (exec w
     (try_except
        (n ← to_list_length limit;
         docs ← find c q key dir n;
         for_each f docs)
        (fun e => _ ← log_error msg e; Raise E)) st).1 = Ok l ->
  0 <= limit /\
  exists s,
    (exec w (for_each f (run_find (st_db st) c q key dir (Z.to_nat limit))) s).1
    = Ok l.
Proof.
  rewrite exec_guard. unfold to_list_length, mbind, prog_bind, find.
  destruct (limit <? 0) eqn:Hl; cbn [bind exec]; [done|].
  destruct (w_store_up w _); cbn [lift bind]; [|done].
  intros H. split; [lia|]. eexists.
  destruct (exec w _ _) as [[l'|e|b] s'] eqn:He in H; [|done..].
  rewrite He. exact H.
Qed.

Lemma matches_field (q : query) (d : document) (key v : string) :
  In (key, v) q -> matches q d = true -> kw_str d key = Ok v.
Proof.
  unfold matches. rewrite forallb_forall. intros Hin H.
  specialize (H _ Hin). cbn [fst snd] in H. unfold kw_str.
  destruct (d !! key) as [[]|]; try done.
  by apply String.eqb_eq in H as ->.
Qed.

Lemma ChatMessage_of_kw_fields (w : world) (kw : document) (s : state)
    (m : ChatMessage) :
  (exec w (ChatMessage_of_kw kw) s).1 = Ok m ->
  kw_str kw "user_id" = Ok (cm_user_id m) /\
  kw_str kw "session_id" = Ok (cm_session_id m).
Proof.
  unfold ChatMessage_of_kw, mbind, prog_bind.
  rewrite exec_bind. destruct (exec w (kw_id kw) s) as [[id|e|b] s1]; [|done..].
  destruct (kw_str kw "user_id") as [u| |]; cbn [lift bind exec]; [|done..].
  destruct (kw_str kw "session_id") as [sid| |]; cbn [lift bind exec]; [|done..].
  destruct (kw_str kw "message") as [msg| |]; cbn [lift bind exec]; [|done..].
  destruct (kw_str kw "response") as [resp| |]; cbn [lift bind exec]; [|done..].
  destruct (kw_opt_str kw "sentiment") as [sent| |]; cbn [lift bind exec]; [|done..].
  rewrite exec_bind.
  destruct (exec w (kw_created_at kw) s1) as [[now|e|b] s2]; [|done..].
  cbn [exec fst]. by intros [= <-].
Qed.

Lemma MoodCheckIn_init_fields (w : world) (kw : document) (s : state)
    (c : MoodCheckIn) :
  (exec w (MoodCheckIn_init kw) s).1 = Ok c ->
  kw_str kw "user_id" = Ok (mc_user_id c).
Proof.
  unfold MoodCheckIn_init, mbind, prog_bind.
  rewrite exec_bind. destruct (exec w (kw_id kw) s) as [[id|e|b] s1]; [|done..].
  destruct (kw_str kw "user_id") as [u| |]; cbn [lift bind exec]; [|done..].
  destruct (kw_int kw "mood_level") as [m| |]; cbn [lift bind exec]; [|done..].
  destruct (kw_int kw "stress_level") as [sl| |]; cbn [lift bind exec]; [|done..].
  destruct (kw_int kw "energy_level") as [el| |]; cbn [lift bind exec]; [|done..].
  destruct (kw_opt_str kw "notes") as [n| |]; cbn [lift bind exec]; [|done..].
  rewrite exec_bind.
  destruct (exec w (kw_created_at kw) s1) as [[now|e|b] s2]; [|done..].
  cbn [exec fst]. by intros [= <-].
Qed.

Lemma JournalEntry_init_fields (w : world) (kw : document) (s : state)
    (e : JournalEntry) :
  (exec w (JournalEntry_init kw) s).1 = Ok e ->
  kw_str kw "user_id" = Ok (je_user_id e).
Proof.
  unfold JournalEntry_init, mbind, prog_bind.
  rewrite exec_bind. destruct (exec w (kw_id kw) s) as [[id|x|b] s1]; [|done..].
  destruct (kw_str kw "user_id") as [u| |]; cbn [lift bind exec]; [|done..].
  destruct (kw_str kw "content") as [c| |]; cbn [lift bind exec]; [|done..].
  destruct (kw_opt_float kw "mood_score") as [m| |]; cbn [lift bind exec]; [|done..].
  destruct (kw_opt_str kw "sentiment") as [sn| |]; cbn [lift bind exec]; [|done..].
  destruct (kw_list kw "tags") as [tg| |]; cbn [lift bind exec]; [|done..].
  destruct (kw_opt_str kw "ai_insights") as [ai| |]; cbn [lift bind exec]; [|done..].
  destruct (kw_str_default kw "privacy_level" "private") as [pv| |];
    cbn [lift bind exec]; [|done..].
  rewrite exec_bind.
  destruct (exec w (kw_created_at kw) s1) as [[now|x|b] s2]; [|done..].
  cbn [exec fst]. by intros [= <-].
Qed.

(** A read route that returns gives at most [limit] records, each read
    from a document that matches the filter. *)
Lemma read_route_records {B : Type} (w : world) (c : collection) (q : query)
    (key : string) (dir limit : Z) (f : document -> prog B) (msg : string)
    (E : exn) (st : state) (l : list B) :
  (exec w
     (try_except
        (n ← to_list_length limit;
         docs ← find c q key dir n;
         for_each f docs)
        (fun e => _ ← log_error msg e; Raise E)) st).1 = Ok l ->
  0 <= limit /\
  (length l <= Z.to_nat limit)%nat /\
  Forall (fun x => exists d s, matches q d = true /\
                               (exec w (f d) s).1 = Ok x) l.
Proof.
  intros H. apply read_route_result in H as (Hl & s & H).
  apply exec_for_each in H.
  destruct (run_find_spec (st_db st) c q key dir (Z.to_nat limit)) as [Hlen Hm].
  split; [done|]. split.
  - by rewrite <- (Forall2_length _ _ _ H).
  - clear Hlen. induction H as [|d x ds xs (s' & Hx) _ IH]; [constructor|].
    inversion Hm; subst. constructor; eauto.
Qed.

End ReadRoutes.

(** X19: when [GET /chat/{user_id}/{session_id}] returns, the limit was
    not negative, at most [limit] turns come back, and every one of them
    is a turn of that user in that session. *)
Theorem X19_chat_history_of_session (w : world) (u sid : string) (limit : Z)
    (st : state) (l : list ChatMessage) :
  (exec w (get_chat_history u sid limit) st).1 = Ok l ->
  0 <= limit /\
  (length l <= Z.to_nat limit)%nat /\
  Forall (fun m => cm_user_id m = u /\ cm_session_id m = sid) l.
Proof.
  intros H. apply read_route_records in H as (Hl & Hlen & Hall).
  split; [done|]. split; [done|].
  eapply Forall_impl; [exact Hall|]. intros m (d & s & Hm & Hx).
  apply ChatMessage_of_kw_fields in Hx as [Hu Hs].
  assert (kw_str d "user_id" = Ok u) as Hu'
    by (eapply matches_field; [|exact Hm]; cbn; auto).
  assert (kw_str d "session_id" = Ok sid) as Hs'
    by (eapply matches_field; [|exact Hm]; cbn; auto).
  split; congruence.
Qed.

Lemma X19_chat_history_of_session_witness :
  let w := constant_world (Ok "Sentiment: negative") in
  let st := serve w (PostChat sample_chat) init_state in
  let l := [chat_message_of sample_chat "Sentiment: negative"
              (set_sentiment parse_default "negative")
              (w_uuid w 2) (w_now w 3)] in
  0 <= 50 /\
  (length l <= Z.to_nat 50)%nat /\
  Forall (fun m => cm_user_id m = "alice" /\ cm_session_id m = "s-1") l.
Proof.
  intros w st l.
  apply (X19_chat_history_of_session w "alice" "s-1" 50 st l).
  reflexivity.
Defined.

(** X20: when [GET /journal/{user_id}] returns, the limit was not
    negative, at most [limit] entries come back, and every one of them
    belongs to that user. *)
Theorem X20_journal_entries_of_user (w : world) (u : string) (limit : Z)
    (st : state) (l : list JournalEntry) :
  (exec w (get_journal_entries u limit) st).1 = Ok l ->
  0 <= limit /\
  (length l <= Z.to_nat limit)%nat /\
  Forall (fun e => je_user_id e = u) l.
Proof.
  intros H. apply read_route_records in H as (Hl & Hlen & Hall).
  split; [done|]. split; [done|].
  eapply Forall_impl; [exact Hall|]. intros e (d & s & Hm & Hx).
  apply JournalEntry_init_fields in Hx.
  assert (kw_str d "user_id" = Ok u) as Hu
    by (eapply matches_field; [|exact Hm]; cbn; auto).
  congruence.
Qed.

Lemma X20_journal_entries_of_user_witness :
  let w := constant_world (Ok "Sentiment: positive") in
  let st := serve w (PostJournal sample_entry) init_state in
  let l := [journal_entry_of sample_entry (set_sentiment parse_default "positive")
              (w_uuid w 1) (w_now w 2)] in
  0 <= 20 /\
  (length l <= Z.to_nat 20)%nat /\
  Forall (fun e => je_user_id e = "alice") l.
Proof.
  intros w st l.
  apply (X20_journal_entries_of_user w "alice" 20 st l).
  reflexivity.
Defined.

(** X21: when [GET /mood-checkin/{user_id}] returns, the limit was not
    negative, at most [limit] check-ins come back, and every one of them
    belongs to that user. *)
Theorem X21_mood_checkins_of_user (w : world) (u : string) (limit : Z)
    (st : state) (l : list MoodCheckIn) :
  (exec w (get_mood_checkins u limit) st).1 = Ok l ->
  0 <= limit /\
  (length l <= Z.to_nat limit)%nat /\
  Forall (fun c => mc_user_id c = u) l.
Proof.
  intros H. apply read_route_records in H as (Hl & Hlen & Hall).
  split; [done|]. split; [done|].
  eapply Forall_impl; [exact Hall|]. intros c (d & s & Hm & Hx).
  apply MoodCheckIn_init_fields in Hx.
  assert (kw_str d "user_id" = Ok u) as Hu
    by (eapply matches_field; [|exact Hm]; cbn; auto).
  congruence.
Qed.

Lemma X21_mood_checkins_of_user_witness :
  let w := constant_world (Ok "") in
  let st := state_with_checkins
              [checkin_doc "bob" 1 5 "2025-03-01T09:00:00+00:00";
               checkin_doc "alice" 4 2 "2025-03-02T09:00:00+00:00";
               checkin_doc "alice" 3 3 "2025-03-03T09:00:00+00:00"] in
  let l := [{| mc_id := "c"; mc_user_id := "alice"; mc_mood_level := 3;
               mc_stress_level := 3; mc_energy_level := 3; mc_notes := None;
               mc_created_at := Datetime "2025-03-03T09:00:00+00:00" |}] in
  0 <= 1 /\
  (length l <= Z.to_nat 1)%nat /\
  Forall (fun c => mc_user_id c = "alice") l.
Proof.
  intros w st l.
  apply (X21_mood_checkins_of_user w "alice" 1 st l).
  reflexivity.
Defined.

(** ** The gateway calls *)

(** X22: the analysis calls the gateway exactly once, with the sentiment
    client and the prompt built from the text; it writes a log entry
    only when that call fails with an [Exception], and it does nothing
    else: no second attempt, no store access. *)
Theorem X22_analysis_effects {U : Unicode} (w : world) (content : string)
    (st : state) :
  let reply := analysis_reply w content st in
  let out := exec w (analyze_sentiment content) st in
  st_trace out.2 =
    (st_trace st ++
     EvSend get_sentiment_chat (prompt content) reply ::
     match reply with
     | Ok _ => []
     | Err e => [EvLog "Error in sentiment analysis: " e]
     | ErrBase _ => []
     end)%list /\
  st_db out.2 = st_db st.
Proof.
  intros reply out. subst reply out.
  destruct (analysis_reply w content st) as [response|e|b] eqn:Hg.
  - destruct (parse_response_total response) as [r Hr].
    by rewrite (exec_analyze_ok w content st response r Hg Hr).
  - rewrite (exec_analyze_err w content st e Hg). cbn.
    by rewrite <- app_assoc.
  - by rewrite (exec_analyze_base w content st b Hg).
Qed.



(** X23: the statistics are computed from the store alone: two worlds
    that agree on the store being reachable give the same answer,
    whatever their gateways, uuids and clocks. *)
Theorem X23_stats_independent_of_gateway (w w' : world) (u : string)
    (st : state) :
  w_store_up w (length (st_trace st)) = w_store_up w' (length (st_trace st)) ->
  w_store_up w (S (length (st_trace st))) = w_store_up w' (S (length (st_trace st))) ->
  (exec w (get_user_stats u) st).1 = (exec w' (get_user_stats u) st).1.
Proof.
  intros H0 H1. rewrite !get_user_stats_result. by rewrite H0, H1.
Qed.

Lemma X23_stats_independent_of_gateway_witness :
  (exec (constant_world (Ok "Sentiment: positive")) (get_user_stats "alice")
     (state_with_checkins [checkin_doc "alice" 4 2 "2025-03-01T09:00:00+00:00"])).1 =
  (exec (constant_world (Err GatewayError)) (get_user_stats "alice")
     (state_with_checkins [checkin_doc "alice" 4 2 "2025-03-01T09:00:00+00:00"])).1.
Proof.
  apply (X23_stats_independent_of_gateway
           (constant_world (Ok "Sentiment: positive"))
           (constant_world (Err GatewayError)) "alice").
  - reflexivity.
  - reflexivity.
Defined.
